(** * Widget connectors: refinement list and configure

    A shallow embedding of the two connectors
    - [connectRefinementList] (the refinement-list connector), and
    - [connectConfigure] (the parameter-merging connector),
    together with the part of the search client's query state they drive.

    JavaScript objects used as dictionaries are finite maps ([gmap]) keyed by
    strings, arrays are lists, [undefined] is [None] for an optional field,
    a thrown [Error] is the [Throw] constructor of [result], and the calls a
    connector makes to the outside world (the rendering callback, the
    sub-search of the client, the unmount hook) are recorded as a list of
    [Event]s in the order in which they happen. *)

From Stdlib Require Import ZArith Bool.
From stdpp Require Import base option list strings gmap fin_maps.

Set Default Proof Using "Type".

(** ** Errors *)

Inductive result (A : Type) : Type :=
| Ok (a : A)
| Throw (msg : string).
Arguments Ok {A} a.
Arguments Throw {A} msg.

#[global] Instance result_ret : MRet result := λ _ a, Ok a.

#[global] Instance result_bind : MBind result := λ _ _ k r,
  match r with
  | Ok a => k a
  | Throw msg => Throw msg
  end.

(** [{...a, ...b}]: the keys of [b] win.  The union of [gmap] is biased to
    the left, hence the swap. *)
Definition spread {V} (a b : gmap string V) : gmap string V := b ∪ a.

(** The property names a plain object inherits from [Object.prototype]. *)
Definition objectPrototypeKeys : list string :=
  ["constructor"; "__proto__"; "hasOwnProperty"; "isPrototypeOf";
   "propertyIsEnumerable"; "toLocaleString"; "toString"; "valueOf";
   "__defineGetter__"; "__defineSetter__"; "__lookupGetter__";
   "__lookupSetter__"].

(** What reading [object[key]] on a plain object finds: the object's own
    property, else a property inherited from [Object.prototype] (a function,
    or the prototype itself for [__proto__]: truthy, and not an array), else
    [undefined]. *)
Inductive PropertyRead (A : Type) : Type :=
| OwnProperty (a : A)
| InheritedProperty
| NoProperty.
Arguments OwnProperty {A} a.
Arguments InheritedProperty {A}.
Arguments NoProperty {A}.

Definition readProperty {A} (object : gmap string A) (key : string)
    : PropertyRead A :=
  match object !! key with
  | Some a => OwnProperty a
  | None =>
      if bool_decide (key ∈ objectPrototypeKeys) then InheritedProperty
      else NoProperty
  end.

(** [array.slice(0, end)] for an integer [end]: a negative [end] counts from
    the end of the array. *)
Definition slice0 {A} (l : list A) (e : Z) : list A :=
  if (e <? 0)%Z then take (Z.to_nat (Z.of_nat (length l) + e)) l
  else take (Z.to_nat e) l.

(** [m > n] in JavaScript where [m] may be [undefined]: a comparison with
    [undefined] is false. *)
Definition js_gt (m : option Z) (n : Z) : bool :=
  match m with
  | Some m => (n <? m)%Z
  | None => false
  end.

(** ** The query state of the search client *)

(** Values of plain search parameters, as a JavaScript object holds them. *)
Inductive PValue : Type :=
| PUndefined
| PNum (z : Z)
| PStr (s : string)
| PBool (b : bool)
| PList (l : list string).

Definition is_defined (v : PValue) : bool :=
  match v with PUndefined => false | _ => true end.

(** The fields of the client's [SearchParameters] that the two connectors
    read or write: the declared conjunctive and disjunctive facets, the
    refinements of both channels, [maxValuesPerFacet], and the remaining
    query parameters, which the client keeps as plain properties. *)
Record SearchParameters : Type := mkSearchParameters {
  facets : list string;
  disjunctiveFacets : list string;
  facetsRefinements : gmap string (list string);
  disjunctiveFacetsRefinements : gmap string (list string);
  maxValuesPerFacet : option Z;
  queryParameters : gmap string PValue;
}.

Module SP.

Definition empty : SearchParameters :=
  mkSearchParameters [] [] ∅ ∅ None ∅.

Definition with_facets (l : list string) (s : SearchParameters) :=
  mkSearchParameters l (disjunctiveFacets s) (facetsRefinements s)
    (disjunctiveFacetsRefinements s) (maxValuesPerFacet s) (queryParameters s).

Definition with_disjunctiveFacets (l : list string) (s : SearchParameters) :=
  mkSearchParameters (facets s) l (facetsRefinements s)
    (disjunctiveFacetsRefinements s) (maxValuesPerFacet s) (queryParameters s).

Definition with_facetsRefinements (m : gmap string (list string))
    (s : SearchParameters) :=
  mkSearchParameters (facets s) (disjunctiveFacets s) m
    (disjunctiveFacetsRefinements s) (maxValuesPerFacet s) (queryParameters s).

Definition with_disjunctiveFacetsRefinements (m : gmap string (list string))
    (s : SearchParameters) :=
  mkSearchParameters (facets s) (disjunctiveFacets s) (facetsRefinements s)
    m (maxValuesPerFacet s) (queryParameters s).

Definition with_maxValuesPerFacet (v : option Z) (s : SearchParameters) :=
  mkSearchParameters (facets s) (disjunctiveFacets s) (facetsRefinements s)
    (disjunctiveFacetsRefinements s) v (queryParameters s).

Definition with_queryParameters (m : gmap string PValue)
    (s : SearchParameters) :=
  mkSearchParameters (facets s) (disjunctiveFacets s) (facetsRefinements s)
    (disjunctiveFacetsRefinements s) (maxValuesPerFacet s) m.

(** Modelled from the spec: [isConjunctiveFacet] of the client's query
    state (section 6, not among the sources): the attribute is one of the
    declared conjunctive facets. *)
Definition isConjunctiveFacet (s : SearchParameters) (a : string) : bool :=
  bool_decide (a ∈ facets s).

(** Modelled from the spec: [isDisjunctiveFacet] of the client's query
    state (section 6, not among the sources). *)
Definition isDisjunctiveFacet (s : SearchParameters) (a : string) : bool :=
  bool_decide (a ∈ disjunctiveFacets s).

(** Modelled from the spec: [getConjunctiveRefinements] of the client
    (section 6, not among the sources): the values refined on a declared
    conjunctive facet, the empty array when the facet is not declared or
    has no entry. *)
Definition getConjunctiveRefinements (s : SearchParameters) (a : string)
    : list string :=
  if isConjunctiveFacet s a then default [] (facetsRefinements s !! a)
  else [].

(** Modelled from the spec: [getDisjunctiveRefinements] of the client
    (section 6, not among the sources). *)
Definition getDisjunctiveRefinements (s : SearchParameters) (a : string)
    : list string :=
  if isDisjunctiveFacet s a
  then default [] (disjunctiveFacetsRefinements s !! a)
  else [].

(** Modelled from the spec: [clearRefinements(attribute)] of the client
    (section 6, not among the sources): the attribute's entry is dropped
    from every refinement channel. *)
Definition clearRefinements (s : SearchParameters) (a : string)
    : SearchParameters :=
  with_disjunctiveFacetsRefinements (delete a (disjunctiveFacetsRefinements s))
    (with_facetsRefinements (delete a (facetsRefinements s)) s).

(** Modelled from the spec: [addFacet] of the client (section 6, not among
    the sources): declares a conjunctive facet unless it is declared. *)
Definition addFacet (s : SearchParameters) (a : string) : SearchParameters :=
  if isConjunctiveFacet s a then s
  else with_facets (facets s ++ [a]) s.

(** Modelled from the spec: [addDisjunctiveFacet] of the client (section 6,
    not among the sources). *)
Definition addDisjunctiveFacet (s : SearchParameters) (a : string)
    : SearchParameters :=
  if isDisjunctiveFacet s a then s
  else with_disjunctiveFacets (disjunctiveFacets s ++ [a]) s.

(** Modelled from the spec: [removeFacet] of the client (section 6, not
    among the sources): an undeclared facet leaves the state as it is; a
    declared one loses its refinements and its declaration. *)
Definition removeFacet (s : SearchParameters) (a : string)
    : SearchParameters :=
  if isConjunctiveFacet s a
  then with_facets (filter (λ f, f ≠ a) (facets s)) (clearRefinements s a)
  else s.

(** Modelled from the spec: [removeDisjunctiveFacet] of the client
    (section 6, not among the sources). *)
Definition removeDisjunctiveFacet (s : SearchParameters) (a : string)
    : SearchParameters :=
  if isDisjunctiveFacet s a
  then with_disjunctiveFacets (filter (λ f, f ≠ a) (disjunctiveFacets s))
         (clearRefinements s a)
  else s.

(** Modelled from the spec: whether a value is among the refinements a
    refinement map holds for an attribute (the client's test before it adds
    a refinement; not among the sources). *)
Definition isRefined (m : gmap string (list string)) (a v : string) : bool :=
  bool_decide (v ∈ default [] (m !! a)).

(** Modelled from the spec: adding one value to a refinement map (not among
    the sources): a value already present is not added again, a new one is
    appended. *)
Definition addRefinement (m : gmap string (list string)) (a v : string)
    : gmap string (list string) :=
  if isRefined m a v then m
  else <[a := default [] (m !! a) ++ [v]]> m.

(** Modelled from the spec: [addFacetRefinement] of the client (section 6,
    not among the sources).  It throws when the facet is not declared as a
    conjunctive facet. *)
Definition addFacetRefinement (s : SearchParameters) (a v : string)
    : result SearchParameters :=
  if negb (isConjunctiveFacet s a)
  then Throw (a +:+ " is not defined in the facets attribute of the helper configuration")
  else Ok (with_facetsRefinements (addRefinement (facetsRefinements s) a v) s).

(** Modelled from the spec: [addDisjunctiveFacetRefinement] of the client
    (section 6, not among the sources).  It throws when the facet is not
    declared as a disjunctive facet. *)
Definition addDisjunctiveFacetRefinement (s : SearchParameters) (a v : string)
    : result SearchParameters :=
  if negb (isDisjunctiveFacet s a)
  then Throw (a +:+ " is not defined in the disjunctiveFacets attribute of the helper configuration")
  else Ok (with_disjunctiveFacetsRefinements
             (addRefinement (disjunctiveFacetsRefinements s) a v) s).

(** Modelled from the spec: [setQueryParameter('maxValuesPerFacet', v)] of
    the client (section 6, not among the sources); [undefined] unsets the
    parameter. *)
Definition setMaxValuesPerFacet (s : SearchParameters) (v : option Z)
    : SearchParameters :=
  with_maxValuesPerFacet v s.

(** Modelled from the spec: [setQueryParameters] of the client (section 6,
    not among the sources) on plain query parameters: a key given as
    [undefined] is removed, any other given key is set, the rest is
    kept. *)
Definition setQueryParameters (s : SearchParameters)
    (params : gmap string PValue) : SearchParameters :=
  with_queryParameters
    (merge (λ next prev,
              match next with
              | Some PUndefined => None
              | Some v => Some v
              | None => prev
              end) params (queryParameters s)) s.

(** Modelled from the spec: [new SearchParameters(plain)] of the client
    (not among the sources) on plain query parameters: the properties with
    a defined value are kept, nothing else is declared or refined. *)
Definition fromPlain (plain : gmap string PValue) : SearchParameters :=
  with_queryParameters (filter (λ kv, is_defined kv.2 = true) plain) empty.

End SP.

(** ** The serializable UI state *)

(** One entry per widget category: [refinementList] (attribute to refined
    values), [configure] (raw parameters), and the entries of all other
    categories, kept as they are. *)
Record UIState : Type := mkUIState {
  refinementList : option (gmap string (list string));
  configure : option (gmap string PValue);
  otherCategories : gmap string string;
}.

(** [uiState.refinementList && uiState.refinementList[a]]. *)
Definition readRefinementList (uiState : UIState) (a : string)
    : PropertyRead (list string) :=
  match refinementList uiState with
  | None => NoProperty
  | Some object => readProperty object a
  end.

(** ** The refinement-list connector *)

Module RefinementList.

(** A facet value of the primary results: [{ name, count, isRefined }]. *)
Record FacetValue : Type := mkFacetValue {
  name : string;
  facetCount : nat;
  facetIsRefined : bool;
}.

(** A facet hit of a sub-search: [{ value, highlighted, count, isRefined }]. *)
Record FacetHit : Type := mkFacetHit {
  hitValue : string;
  hitHighlighted : string;
  hitCount : nat;
  hitIsRefined : bool;
}.

(** An item handed to the rendering callback. *)
Record RefinementListItem : Type := mkItem {
  value : string;
  label : string;
  highlighted : string;
  count : nat;
  isRefined : bool;
}.

(** The two pairs of highlight tags of [lib/escape-highlight], which is not
    among the sources; only which pair is passed matters here. *)
Inductive HighlightTags : Type :=
| TAG_PLACEHOLDER
| TAG_REPLACEMENT.

(** [widgetParams] as the caller passes it: every option may be left
    [undefined]. *)
Record WidgetParams : Type := mkWidgetParams {
  wp_attribute : option string;
  wp_operator : option string;
  wp_limit : option Z;
  wp_showMore : option bool;
  wp_showMoreLimit : option Z;
  wp_sortBy : option (list string);
  wp_escapeFacetValues : option bool;
  wp_transformItems :
    option (list RefinementListItem → list RefinementListItem);
}.

(** The options after destructuring with their defaults; what the closures
    of one widget share. *)
Record Options : Type := mkOptions {
  attribute : string;
  operator : string;
  limit : Z;
  showMore : bool;
  showMoreLimit : Z;
  sortBy : list string;
  escapeFacetValues : bool;
  transformItems : list RefinementListItem → list RefinementListItem;
}.

(** [/^(and|or)$/.test(operator)] on a string. *)
Definition operator_matches (op : string) : bool :=
  String.eqb op "and" || String.eqb op "or".

(** The factory [widgetParams => widget], up to the point where the widget
    object is returned: the defaults and the three checks. *)
Definition connectRefinementList (widgetParams : WidgetParams)
    : result Options :=
  let operator := default "or" (wp_operator widgetParams) in
  let limit := default 10%Z (wp_limit widgetParams) in
  let showMore := default false (wp_showMore widgetParams) in
  let showMoreLimit := default 20%Z (wp_showMoreLimit widgetParams) in
  let sortBy :=
    default ["isRefined"; "count:desc"; "name:asc"] (wp_sortBy widgetParams) in
  let escapeFacetValues := default true (wp_escapeFacetValues widgetParams) in
  let transformItems := default (λ items, items) (wp_transformItems widgetParams) in
  match wp_attribute widgetParams with
  | None | Some "" => Throw "The `attribute` option is required."
  | Some attribute =>
      if negb (operator_matches operator)
      then Throw "The `operator` must one of: `and`, `or`."
      else if showMore && (showMoreLimit <=? limit)%Z
      then Throw "`showMoreLimit` should be greater than `limit`."
      else Ok (mkOptions attribute operator limit showMore showMoreLimit
                 sortBy escapeFacetValues transformItems)
  end.

(** [formatItems]. *)
Definition formatItems (f : FacetValue) : RefinementListItem :=
  {| value := name f; label := name f; highlighted := name f;
     count := facetCount f; isRefined := facetIsRefined f |}.

(** The argument of the widget's [render] method: the results, reduced to
    their accessor [getFacetValues(attribute, { sortBy })] ([None] is
    [undefined]), and the query state. *)
Record RenderOptions : Type := mkRenderOptions {
  getFacetValues : string → list string → option (list FacetValue);
  state : SearchParameters;
}.

(** The mutable variables one widget closes over: its own
    ([lastResultsFromMainSearch], [hasExhaustiveItems],
    [searchForFacetValues], [triggerRefine]; the last two are functions
    bound by [init], recorded as bound or not) and those of the show-more
    enhancer ([isShowingMore] and the render call recorded by
    [setToggleShowMore]). *)
Record WidgetState : Type := mkWidgetState {
  lastResultsFromMainSearch : list RefinementListItem;
  hasExhaustiveItems : bool;
  searchForFacetValues : bool;
  triggerRefine : bool;
  isShowingMore : bool;
  lastRender : option RenderOptions;
}.

Definition initialState : WidgetState :=
  mkWidgetState [] true false false false None.

(** What the rendering callback receives.  [pl_searchForItems] is the
    query state captured by the [searchForItems] closure, [None] when the
    sub-search function is not bound yet. *)
Record RenderPayload : Type := mkPayload {
  pl_items : list RefinementListItem;
  pl_searchForItems : option SearchParameters;
  pl_isFromSearch : bool;
  pl_canRefine : bool;
  pl_isShowingMore : bool;
  pl_canToggleShowMore : bool;
  pl_hasExhaustiveItems : bool;
}.

(** Calls to the outside world. *)
Inductive Event : Type :=
| RenderFn (payload : RenderPayload) (isFirstRender : bool)
| SearchForFacetValues (attribute query : string) (maxFacetHits : Z)
    (tags : HighlightTags)
| UnmountFn.

Section Widget.
Context (o : Options).

(** Modelled from the spec: [getCurrentLimit] of the show-more enhancer
    [createShowMore] (lib/enhancers, not among the sources): [limit] in
    base mode, [showMoreLimit] in expanded mode. *)
Definition getCurrentLimit (w : WidgetState) : Z :=
  if isShowingMore w then showMoreLimit o else limit o.

(** Modelled from the spec: [getIsShowingMore] of [createShowMore]. *)
Definition getIsShowingMore (w : WidgetState) : bool := isShowingMore w.

(** Modelled from the spec: [setToggleShowMore] of [createShowMore]:
    records the most recent render invocation. *)
Definition setToggleShowMore (r : RenderOptions) (w : WidgetState)
    : WidgetState :=
  mkWidgetState (lastResultsFromMainSearch w) (hasExhaustiveItems w)
    (searchForFacetValues w) (triggerRefine w) (isShowingMore w) (Some r).

(** [canShowLess] and [canShowMore] of the inner [render]. *)
Definition canShowLess (w : WidgetState) : bool :=
  getIsShowingMore w
  && (limit o <? Z.of_nat (length (lastResultsFromMainSearch w)))%Z.

Definition canShowMore (w : WidgetState) (isFromSearch : bool) : bool :=
  showMore o && negb isFromSearch && negb (hasExhaustiveItems w).

(** The inner [render]: builds the payload from its arguments and the
    closure variables and calls the rendering callback once. *)
Definition render (w : WidgetState) (items : list RefinementListItem)
    (state : SearchParameters)
    (helperSpecializedSearchFacetValues isFromSearch isFirstSearch : bool)
    : list Event :=
  let isShowingMore := getIsShowingMore w in
  let searchFacetValues :=
    if helperSpecializedSearchFacetValues then Some state else None in
  let canShowLess := canShowLess w in
  let canShowMore := canShowMore w isFromSearch in
  let canToggleShowMore := canShowLess || canShowMore in
  [RenderFn
     {| pl_items := items;
        pl_searchForItems := searchFacetValues;
        pl_isFromSearch := isFromSearch;
        pl_canRefine := isFromSearch || (0 <? length items)%nat;
        pl_isShowingMore := isShowingMore;
        pl_canToggleShowMore := canToggleShowMore;
        pl_hasExhaustiveItems := hasExhaustiveItems w |}
     isFirstSearch].

(** The function [createSearchForFacetValues(helper)(state, ...)] hands
    to the payload as [searchForItems], called with [query].  An array is
    truthy, so the test on [lastResultsFromMainSearch] always passes. *)
Definition searchForItems (w : WidgetState) (state : SearchParameters)
    (query : string) : list Event :=
  if String.eqb query "" && true then
    render w (lastResultsFromMainSearch w) state true false false
  else
    let tags :=
      if escapeFacetValues o then TAG_PLACEHOLDER else TAG_REPLACEMENT in
    [SearchForFacetValues (attribute o) query (getCurrentLimit w) tags].

(** The continuation of the sub-search, run when the client resolves with
    [results.facetHits]; [escapeFacets] is the escaping function of
    [lib/escape-highlight]. *)
Definition searchForItems_then
    (escapeFacets : list FacetHit → list FacetHit)
    (w : WidgetState) (state : SearchParameters)
    (facetHits : list FacetHit) : list Event :=
  let facetValues :=
    if escapeFacetValues o then escapeFacets facetHits else facetHits in
  let normalizedFacetValues :=
    transformItems o
      ((λ h, {| value := hitValue h; label := hitValue h;
                highlighted := hitHighlighted h; count := hitCount h;
                isRefined := hitIsRefined h |}) <$> facetValues) in
  render w normalizedFacetValues state true true false.

(** [init({ helper, ... })]: binds [triggerRefine] and
    [searchForFacetValues], then renders no items. *)
Definition init (w : WidgetState) (helperState : SearchParameters)
    : WidgetState * list Event :=
  let w1 :=
    mkWidgetState (lastResultsFromMainSearch w) (hasExhaustiveItems w)
      true true (isShowingMore w) (lastRender w) in
  (w1, render w1 [] helperState (searchForFacetValues w1) false true).

(** The widget's [render(renderOptions)] method. *)
Definition widget_render (w : WidgetState) (renderOptions : RenderOptions)
    : WidgetState * list Event :=
  let w1 := setToggleShowMore renderOptions w in
  let currentLimit := getCurrentLimit w1 in
  let facetValues :=
    default [] (getFacetValues renderOptions (attribute o) (sortBy o)) in
  let items :=
    transformItems o (formatItems <$> slice0 facetValues currentLimit) in
  let maxValuesPerFacetConfig := maxValuesPerFacet (state renderOptions) in
  let exhaustive :=
    if js_gt maxValuesPerFacetConfig currentLimit
    then (Z.of_nat (length facetValues) <=? currentLimit)%Z
    else (Z.of_nat (length facetValues) <? currentLimit)%Z in
  let w2 :=
    mkWidgetState items exhaustive (searchForFacetValues w1)
      (triggerRefine w1) (isShowingMore w1) (lastRender w1) in
  (w2, render w2 items (state renderOptions) (searchForFacetValues w2)
         false false).

(** Modelled from the spec: [toggleShowMore] of [createShowMore]
    (lib/enhancers, not among the sources): flips the mode and re-invokes
    the most recently recorded render with its original arguments. *)
Definition toggleShowMore (w : WidgetState) : WidgetState * list Event :=
  let w1 :=
    mkWidgetState (lastResultsFromMainSearch w) (hasExhaustiveItems w)
      (searchForFacetValues w) (triggerRefine w) (negb (isShowingMore w))
      (lastRender w) in
  match lastRender w1 with
  | Some renderOptions => widget_render w1 renderOptions
  | None => (w1, [])
  end.

(** [dispose({ state })]. *)
Definition dispose (state : SearchParameters)
    : SearchParameters * list Event :=
  let withoutMaxValuesPerFacet := SP.setMaxValuesPerFacet state None in
  if String.eqb (operator o) "and"
  then (SP.removeFacet withoutMaxValuesPerFacet (attribute o), [UnmountFn])
  else (SP.removeDisjunctiveFacet withoutMaxValuesPerFacet (attribute o),
        [UnmountFn]).

(** [getWidgetState(uiState, { searchParameters })]. *)
Definition getWidgetState (uiState : UIState)
    (searchParameters : SearchParameters) : UIState :=
  let values :=
    if String.eqb (operator o) "or"
    then SP.getDisjunctiveRefinements searchParameters (attribute o)
    else SP.getConjunctiveRefinements searchParameters (attribute o) in
  if (length values =? 0)%nat then uiState
  else
    mkUIState
      (Some (<[attribute o := values]> (default ∅ (refinementList uiState))))
      (configure uiState) (otherCategories uiState).

(** [getWidgetSearchParameters(searchParameters, { uiState })]. *)
Definition getWidgetSearchParameters (searchParameters : SearchParameters)
    (uiState : UIState) : result SearchParameters :=
  let isDisjunctive := String.eqb (operator o) "or" in
  let values := readRefinementList uiState (attribute o) in
  let withoutRefinements :=
    SP.clearRefinements searchParameters (attribute o) in
  let withFacetConfiguration :=
    if isDisjunctive
    then SP.addDisjunctiveFacet withoutRefinements (attribute o)
    else SP.addFacet withoutRefinements (attribute o) in
  let currentMaxValuesPerFacet :=
    default 0%Z (maxValuesPerFacet withFacetConfiguration) in
  let nextMaxValuesPerFacet :=
    Z.max currentMaxValuesPerFacet
      (if showMore o then showMoreLimit o else limit o) in
  let withMaxValuesPerFacet :=
    SP.setMaxValuesPerFacet withFacetConfiguration
      (Some nextMaxValuesPerFacet) in
  match values with
  | NoProperty =>
      Ok (if isDisjunctive
          then SP.with_disjunctiveFacetsRefinements
                 (<[attribute o := []]>
                    (disjunctiveFacetsRefinements withMaxValuesPerFacet))
                 withMaxValuesPerFacet
          else SP.with_facetsRefinements
                 (<[attribute o := []]>
                    (facetsRefinements withMaxValuesPerFacet))
                 withMaxValuesPerFacet)
  | OwnProperty values =>
      foldl (λ parameters value,
               parameters ← parameters;
               if isDisjunctive
               then SP.addDisjunctiveFacetRefinement parameters
                      (attribute o) value
               else SP.addFacetRefinement parameters (attribute o) value)
            (Ok withMaxValuesPerFacet) values
  | InheritedProperty => Throw "values.reduce is not a function"
  end.

End Widget.

End RefinementList.

(** ** The configure connector *)

Module Configure.

(** [ConfigureConnectorParams]. *)
Record ConfigureConnectorParams : Type := mkParams {
  searchParameters : gmap string PValue;
}.

(** Calls to the outside world: the rendering callback, the unmount hook,
    and [helper.setState(next).search()]. *)
Inductive Event : Type :=
| RenderFn (widgetParams : ConfigureConnectorParams) (isFirstRender : bool)
| SetStateAndSearch (next : SearchParameters)
| UnmountFn.

(** Modelled from the spec: [mergeSearchParameters] of lib/utils (not among
    the sources): merges the right query state over the left one.  Facet
    declarations are added, refinement maps and plain parameters of the
    right state override those of the left. *)
Definition mergeSearchParameters (left right : SearchParameters)
    : SearchParameters :=
  let l1 := foldl SP.addDisjunctiveFacet left (disjunctiveFacets right) in
  let l2 := foldl SP.addFacet l1 (facets right) in
  let l3 :=
    SP.with_facetsRefinements
      (spread (facetsRefinements l2) (facetsRefinements right)) l2 in
  let l4 :=
    SP.with_disjunctiveFacetsRefinements
      (spread (disjunctiveFacetsRefinements l3)
         (disjunctiveFacetsRefinements right)) l3 in
  let l5 :=
    match maxValuesPerFacet right with
    | Some m => SP.setMaxValuesPerFacet l4 (Some m)
    | None => l4
    end in
  SP.setQueryParameters l5 (queryParameters right).

(** [getInitialSearchParameters]: every key of the widget's parameters is
    set to [undefined] on the state. *)
Definition getInitialSearchParameters (state : SearchParameters)
    (widgetParams : ConfigureConnectorParams) : SearchParameters :=
  SP.setQueryParameters state
    ((λ _, PUndefined) <$> searchParameters widgetParams).

(** The function [refine(helper)] returns, called with new parameters on
    the helper's current state.  It replaces the stored parameters. *)
Definition refine (widgetParams : ConfigureConnectorParams)
    (helperState : SearchParameters) (newParameters : gmap string PValue)
    : ConfigureConnectorParams * list Event :=
  let actualState := getInitialSearchParameters helperState widgetParams in
  let nextSearchParameters :=
    mergeSearchParameters actualState (SP.fromPlain newParameters) in
  (mkParams newParameters, [SetStateAndSearch nextSearchParameters]).

Definition init (widgetParams : ConfigureConnectorParams) : list Event :=
  [RenderFn widgetParams true].

Definition render (widgetParams : ConfigureConnectorParams) : list Event :=
  [RenderFn widgetParams false].

Definition dispose (widgetParams : ConfigureConnectorParams)
    (state : SearchParameters) : SearchParameters * list Event :=
  (getInitialSearchParameters state widgetParams, [UnmountFn]).

Definition getWidgetSearchParameters (widgetParams : ConfigureConnectorParams)
    (state : SearchParameters) (uiState : UIState) : SearchParameters :=
  mergeSearchParameters state
    (SP.fromPlain
       (spread (default ∅ (configure uiState))
          (searchParameters widgetParams))).

Definition getWidgetState (widgetParams : ConfigureConnectorParams)
    (uiState : UIState) : UIState :=
  mkUIState (refinementList uiState)
    (Some (spread (default ∅ (configure uiState))
             (searchParameters widgetParams)))
    (otherCategories uiState).

End Configure.

(** ** Vocabulary of the statements *)

Import RefinementList.

(** The refinement values of the widget's attribute, read through the
    accessor of the channel its operator selects. *)
Definition channelRefinements (o : Options) (s : SearchParameters)
    : list string :=
  if String.eqb (operator o) "or"
  then SP.getDisjunctiveRefinements s (attribute o)
  else SP.getConjunctiveRefinements s (attribute o).

(** The refinement map of the channel the operator selects. *)
Definition channelMap (o : Options) (s : SearchParameters)
    : gmap string (list string) :=
  if String.eqb (operator o) "or"
  then disjunctiveFacetsRefinements s
  else facetsRefinements s.

(** The array [uiState.refinementList] holds for [a] as its own property. *)
Definition uiValues (uiState : UIState) (a : string) : option (list string) :=
  refinementList uiState ≫= (.!! a).

(** The payloads the rendering callback received, in order. *)
Definition payloads (evs : list Event) : list RenderPayload :=
  omap (λ e, match e with RenderFn p _ => Some p | _ => None end) evs.

(** The sub-search calls issued, in order. *)
Definition subSearches (evs : list Event)
    : list (string * string * Z * HighlightTags) :=
  omap (λ e, match e with
             | SearchForFacetValues a q n t => Some (a, q, n, t)
             | _ => None
             end) evs.

(** What the host application and the rendering callback can call on a
    widget of the refinement-list connector. *)
Inductive Call : Type :=
| CallInit (helperState : SearchParameters)
| CallRender (renderOptions : RenderOptions)
| CallToggleShowMore
| CallSearchForItems (state : SearchParameters) (query : string)
| CallSubSearchResolved (escapeFacets : list FacetHit → list FacetHit)
    (state : SearchParameters) (facetHits : list FacetHit).

(** One call on a widget: the closure variables afterwards and the calls
    made to the outside world. *)
Definition step (o : Options) (w : WidgetState) (c : Call)
    : WidgetState * list Event :=
  match c with
  | CallInit helperState => init o w helperState
  | CallRender renderOptions => widget_render o w renderOptions
  | CallToggleShowMore => toggleShowMore o w
  | CallSearchForItems state query => (w, searchForItems o w state query)
  | CallSubSearchResolved escapeFacets state facetHits =>
      (w, searchForItems_then o escapeFacets w state facetHits)
  end.

(** A sequence of calls, from left to right; the events of all of them. *)
Fixpoint run (o : Options) (w : WidgetState) (cs : list Call)
    : WidgetState * list Event :=
  match cs with
  | [] => (w, [])
  | c :: cs =>
      let '(w1, evs1) := step o w c in
      let '(w2, evs2) := run o w1 cs in
      (w2, evs1 ++ evs2)
  end.

(** The facet values the results return for the widget's attribute. *)
Definition facetValuesReturned (o : Options) (r : RenderOptions)
    : list FacetValue :=
  default [] (getFacetValues r (attribute o) (sortBy o)).

(** The three ways in which the parameters of a refinement list can be
    rejected, on the options with their defaults. *)
Definition invalidParams (widgetParams : WidgetParams) : Prop :=
  (wp_attribute widgetParams = None ∨ wp_attribute widgetParams = Some "")
  ∨ (default "or" (wp_operator widgetParams) ≠ "and"
     ∧ default "or" (wp_operator widgetParams) ≠ "or")
  ∨ (default false (wp_showMore widgetParams) = true
     ∧ (default 20 (wp_showMoreLimit widgetParams)
        ≤ default 10 (wp_limit widgetParams))%Z).

(** The parameters of the scenarios on the attribute [brand]: [limit = 2],
    [showMore = true], [showMoreLimit = 5], everything else left to its
    default. *)
Definition brandParams : WidgetParams :=
  mkWidgetParams (Some "brand") None (Some 2%Z) (Some true) (Some 5%Z)
    None None None.

Definition brandOptions : Options :=
  mkOptions "brand" "or" 2 true 5 ["isRefined"; "count:desc"; "name:asc"]
    true (λ items, items).

(** Primary results with the three facet values of the scenarios. *)
Definition brandResults (s : SearchParameters) : RenderOptions :=
  mkRenderOptions
    (λ a _, if String.eqb a "brand"
            then Some [mkFacetValue "Apple" 10 false;
                       mkFacetValue "Samsung" 5 false;
                       mkFacetValue "Sony" 3 false]
            else None)
    s.

(** The same widget with the conjunctive operator. *)
Definition brandAndOptions : Options :=
  mkOptions "brand" "and" 2 true 5 ["isRefined"; "count:desc"; "name:asc"]
    true (λ items, items).

(** A query state that declares [brand] as a disjunctive facet refined by
    two values, and one that declares and refines it as a conjunctive
    facet. *)
Definition brandState : SearchParameters :=
  mkSearchParameters [] ["brand"] ∅ {["brand" := ["Apple"; "Sony"]]}
    (Some 3%Z) ∅.

Definition brandAndState : SearchParameters :=
  mkSearchParameters ["brand"] ["color"] {["brand" := ["Apple"]]} ∅
    (Some 3%Z) ∅.

(** The UI state the state-sync driver starts from. *)
Definition emptyUIState : UIState := mkUIState None None ∅.

(** [showMore ? showMoreLimit : limit], the number of facet values the
    projector asks the engine for. *)
Definition requested (o : Options) : Z :=
  if showMore o then showMoreLimit o else limit o.

(** The state [getWidgetSearchParameters] reaches before it looks at the
    values of the UI state ([withMaxValuesPerFacet]): refinements cleared,
    facet declared, [maxValuesPerFacet] raised. *)
Definition prepared (o : Options) (s : SearchParameters) : SearchParameters :=
  let withFacetConfiguration :=
    if String.eqb (operator o) "or"
    then SP.addDisjunctiveFacet (SP.clearRefinements s (attribute o))
           (attribute o)
    else SP.addFacet (SP.clearRefinements s (attribute o)) (attribute o) in
  SP.setMaxValuesPerFacet withFacetConfiguration
    (Some (Z.max (default 0%Z (maxValuesPerFacet withFacetConfiguration))
             (requested o))).

(** Writing a refinement map on the channel the operator selects. *)
Definition with_channelMap (o : Options) (m : gmap string (list string))
    (s : SearchParameters) : SearchParameters :=
  if String.eqb (operator o) "or"
  then SP.with_disjunctiveFacetsRefinements m s
  else SP.with_facetsRefinements m s.

(** The refinement map of the channel the operator does not select. *)
Definition otherMap (o : Options) (s : SearchParameters)
    : gmap string (list string) :=
  if String.eqb (operator o) "or"
  then facetsRefinements s
  else disjunctiveFacetsRefinements s.

(** The facets declared on the channel the operator selects, and on the
    other one. *)
Definition channelFacets (o : Options) (s : SearchParameters) : list string :=
  if String.eqb (operator o) "or" then disjunctiveFacets s else facets s.

Definition otherFacets (o : Options) (s : SearchParameters) : list string :=
  if String.eqb (operator o) "or" then facets s else disjunctiveFacets s.

(** Appending a value to an array unless the array holds it. *)
Definition addOnce (l : list string) (v : string) : list string :=
  if bool_decide (v ∈ l) then l else l ++ [v].

(** What [getWidgetSearchParameters] makes of a refinement map of the
    operator's channel: the attribute's entry is dropped, then written from
    the values of the UI state. *)
Definition projectedMap (o : Options) (uiState : UIState)
    (m : gmap string (list string)) : gmap string (list string) :=
  match uiValues uiState (attribute o) with
  | None => <[attribute o := []]> (delete (attribute o) m)
  | Some values =>
      foldl (λ m v, SP.addRefinement m (attribute o) v)
        (delete (attribute o) m) values
  end.

(** A UI state that lists two values for [brand]. *)
Definition brandUIState : UIState :=
  mkUIState (Some {["brand" := ["Apple"; "Sony"]]}) None ∅.

(** A widget whose limit is negative, which the factory does not reject. *)
Definition negativeLimitOptions : Options :=
  mkOptions "brand" "or" (-1) false 20 ["isRefined"; "count:desc"; "name:asc"]
    true (λ items, items).

(** A configure widget that stores one parameter, and a UI state that
    brings another one. *)
Definition hitsPerPageParams : Configure.ConfigureConnectorParams :=
  Configure.mkParams {["hitsPerPage" := PNum 5]}.

Definition queryUIState : UIState :=
  mkUIState None (Some {["query" := PStr "phone"]}) ∅.

(** A widget on the attribute [constructor], a name every plain object
    inherits, with the parameters that lead to it. *)
Definition constructorParams : WidgetParams :=
  mkWidgetParams (Some "constructor") None None None None None None None.

Definition constructorOptions : Options :=
  mkOptions "constructor" "or" 10 false 20
    ["isRefined"; "count:desc"; "name:asc"] true (λ items, items).

(** UI states whose [refinementList] is the empty object, holds an empty
    array for [constructor], and holds a value for [brand] that no query
    state produced. *)
Definition emptyRefinementListUIState : UIState := mkUIState (Some ∅) None ∅.


Definition staleUIState : UIState :=
  mkUIState (Some {["brand" := ["Stale"]]}) None ∅.

(** * Properties *)

(** ** Facts about the query state *)

Section query_state.
Implicit Types (s : SearchParameters) (a v : string)
  (m : gmap string (list string)).

Lemma isConjunctiveFacet_addFacet s a :
  SP.isConjunctiveFacet (SP.addFacet s a) a = true.
Proof.
  unfold SP.addFacet.
  destruct (SP.isConjunctiveFacet s a) eqn:E; [done|].
  unfold SP.isConjunctiveFacet. apply bool_decide_eq_true. simpl.
  set_solver.
Qed.

Lemma isDisjunctiveFacet_addDisjunctiveFacet s a :
  SP.isDisjunctiveFacet (SP.addDisjunctiveFacet s a) a = true.
Proof.
  unfold SP.addDisjunctiveFacet.
  destruct (SP.isDisjunctiveFacet s a) eqn:E; [done|].
  unfold SP.isDisjunctiveFacet. apply bool_decide_eq_true. simpl.
  set_solver.
Qed.

Lemma addRefinement_lookup m a v :
  ∃ l, SP.addRefinement m a v !! a = Some l
       ∧ ∀ x, x ∈ l ↔ x ∈ default [] (m !! a) ∨ x = v.
Proof.
  unfold SP.addRefinement, SP.isRefined. case_bool_decide as Hin.
  - destruct (m !! a) as [l|] eqn:E; simpl in *.
    + exists l. split; [done|]. intros x. split; [by left|].
      intros [?| ->]; done.
    + by apply elem_of_nil in Hin.
  - eexists. rewrite lookup_insert_eq. split; [done|].
    intros x. rewrite elem_of_app, list_elem_of_singleton. done.
Qed.

Lemma addRefinement_lookup_ne m a b v :
  a ≠ b → SP.addRefinement m a v !! b = m !! b.
Proof.
  intros Hne. unfold SP.addRefinement.
  destruct (SP.isRefined m a v); [done|]. by rewrite lookup_insert_ne.
Qed.

End query_state.

(** ** The folds of [getWidgetSearchParameters] *)

Section folds.
Implicit Types (s : SearchParameters) (a v : string)
  (m : gmap string (list string)).

Lemma with_facetsRefinements_id s :
  SP.with_facetsRefinements (facetsRefinements s) s = s.
Proof. by destruct s. Qed.

Lemma with_disjunctiveFacetsRefinements_id s :
  SP.with_disjunctiveFacetsRefinements (disjunctiveFacetsRefinements s) s = s.
Proof. by destruct s. Qed.

Lemma fold_addFacetRefinement a values : ∀ s,
  SP.isConjunctiveFacet s a = true →
  foldl (λ parameters value,
           parameters ← parameters; SP.addFacetRefinement parameters a value)
        (Ok s) values
  = Ok (SP.with_facetsRefinements
          (foldl (λ m v, SP.addRefinement m a v) (facetsRefinements s) values)
          s).
Proof.
  induction values as [|v values IH]; intros s Hs; simpl.
  - by rewrite with_facetsRefinements_id.
  - unfold SP.addFacetRefinement at 2. rewrite Hs. simpl.
    rewrite IH; [done|]. exact Hs.
Qed.

Lemma fold_addDisjunctiveFacetRefinement a values : ∀ s,
  SP.isDisjunctiveFacet s a = true →
  foldl (λ parameters value,
           parameters ← parameters;
           SP.addDisjunctiveFacetRefinement parameters a value)
        (Ok s) values
  = Ok (SP.with_disjunctiveFacetsRefinements
          (foldl (λ m v, SP.addRefinement m a v)
             (disjunctiveFacetsRefinements s) values)
          s).
Proof.
  induction values as [|v values IH]; intros s Hs; simpl.
  - by rewrite with_disjunctiveFacetsRefinements_id.
  - unfold SP.addDisjunctiveFacetRefinement at 2. rewrite Hs. simpl.
    rewrite IH; [done|]. exact Hs.
Qed.

(** Folding values into a refinement map: the attribute's entry gains
    exactly the folded values. *)
Lemma fold_addRefinement_elem a values : ∀ m x,
  x ∈ default [] (foldl (λ m v, SP.addRefinement m a v) m values !! a)
  ↔ x ∈ default [] (m !! a) ∨ x ∈ values.
Proof.
  induction values as [|v values IH]; intros m x; simpl.
  - rewrite elem_of_nil. tauto.
  - rewrite IH. destruct (addRefinement_lookup m a v) as (l & -> & Hl).
    simpl. rewrite Hl, elem_of_cons. tauto.
Qed.

Lemma fold_addRefinement_nil a m :
  foldl (λ m v, SP.addRefinement m a v) m [] = m.
Proof. done. Qed.

End folds.

(** ** The refinement state projector *)

Section projector.
Context (o : Options).
Implicit Types (s : SearchParameters) (uiState : UIState).

Lemma prepared_maxValuesPerFacet s :
  maxValuesPerFacet (prepared o s)
  = Some (Z.max (default 0%Z (maxValuesPerFacet s)) (requested o)).
Proof.
  unfold prepared, SP.addDisjunctiveFacet, SP.addFacet.
  destruct (String.eqb (operator o) "or"); simpl.
  - by destruct (SP.isDisjunctiveFacet _ _).
  - by destruct (SP.isConjunctiveFacet _ _).
Qed.

Lemma prepared_channelMap s :
  channelMap o (prepared o s) = delete (attribute o) (channelMap o s).
Proof.
  unfold channelMap, prepared, SP.addDisjunctiveFacet, SP.addFacet.
  destruct (String.eqb (operator o) "or"); simpl.
  - by destruct (SP.isDisjunctiveFacet _ _).
  - by destruct (SP.isConjunctiveFacet _ _).
Qed.

Lemma prepared_declared s :
  if String.eqb (operator o) "or"
  then SP.isDisjunctiveFacet (prepared o s) (attribute o) = true
  else SP.isConjunctiveFacet (prepared o s) (attribute o) = true.
Proof.
  unfold prepared. destruct (String.eqb (operator o) "or").
  - apply (isDisjunctiveFacet_addDisjunctiveFacet
             (SP.clearRefinements s (attribute o))).
  - apply (isConjunctiveFacet_addFacet (SP.clearRefinements s (attribute o))).
Qed.

(** An own property is what [uiValues] finds; any other read finds no
    array. *)
Lemma readRefinementList_uiValues uiState (a : string) :
  match readRefinementList uiState a with
  | OwnProperty values => uiValues uiState a = Some values
  | _ => uiValues uiState a = None
  end.
Proof.
  unfold readRefinementList, uiValues, readProperty.
  destruct (refinementList uiState) as [object|]; simpl; [|done].
  destruct (object !! a); [done|]. by case_bool_decide.
Qed.

Lemma uiValues_readRefinementList uiState (a : string) values :
  uiValues uiState a = Some values →
  readRefinementList uiState a = OwnProperty values.
Proof.
  unfold readRefinementList, uiValues, readProperty.
  destruct (refinementList uiState) as [object|]; simpl; [|done].
  by intros ->.
Qed.

(** When the read finds an inherited property, the fold is attempted on a
    value that is not an array, and [getWidgetSearchParameters] throws. *)
Lemma getWidgetSearchParameters_inherited s uiState :
  readRefinementList uiState (attribute o) = InheritedProperty →
  getWidgetSearchParameters o s uiState
  = Throw "values.reduce is not a function".
Proof. intros Hread. unfold getWidgetSearchParameters. by rewrite Hread. Qed.

(** In every other case [getWidgetSearchParameters] returns the prepared
    state with the channel's map rewritten at the attribute. *)
Lemma getWidgetSearchParameters_normal s uiState :
  readRefinementList uiState (attribute o) ≠ InheritedProperty →
  getWidgetSearchParameters o s uiState
  = Ok (with_channelMap o
          (match uiValues uiState (attribute o) with
           | None => <[attribute o := []]> (channelMap o (prepared o s))
           | Some values =>
               foldl (λ m v, SP.addRefinement m (attribute o) v)
                 (channelMap o (prepared o s)) values
           end) (prepared o s)).
Proof.
  intros Hread.
  pose proof (prepared_declared s) as Hdecl.
  pose proof (readRefinementList_uiValues uiState (attribute o)) as Hui.
  unfold getWidgetSearchParameters, with_channelMap, channelMap.
  change (SP.setMaxValuesPerFacet _ _) with (prepared o s).
  destruct (readRefinementList uiState (attribute o)) as [values| |];
    [|done|]; rewrite Hui;
    destruct (String.eqb (operator o) "or") eqn:Hop;
    cbv beta iota; try done.
  - by apply fold_addDisjunctiveFacetRefinement.
  - by apply fold_addFacetRefinement.
Qed.

Lemma getWidgetSearchParameters_Ok_read s uiState r :
  getWidgetSearchParameters o s uiState = Ok r →
  readRefinementList uiState (attribute o) ≠ InheritedProperty.
Proof.
  intros Hok Hread.
  rewrite (getWidgetSearchParameters_inherited s uiState Hread) in Hok.
  discriminate Hok.
Qed.

Lemma channelMap_with_channelMap m s :
  channelMap o (with_channelMap o m s) = m.
Proof.
  unfold channelMap, with_channelMap.
  by destruct (String.eqb (operator o) "or").
Qed.

Lemma maxValuesPerFacet_with_channelMap m s :
  maxValuesPerFacet (with_channelMap o m s) = maxValuesPerFacet s.
Proof.
  unfold with_channelMap. by destruct (String.eqb (operator o) "or").
Qed.

Lemma channelRefinements_with_channelMap m s :
  channelRefinements o (with_channelMap o m (prepared o s))
  = default [] (m !! attribute o).
Proof.
  pose proof (prepared_declared s) as Hdecl.
  unfold channelRefinements, with_channelMap,
    SP.getDisjunctiveRefinements, SP.getConjunctiveRefinements in *.
  destruct (String.eqb (operator o) "or").
  - unfold SP.isDisjunctiveFacet in *. simpl in *. by rewrite Hdecl.
  - unfold SP.isConjunctiveFacet in *. simpl in *. by rewrite Hdecl.
Qed.

(** X27. Unless the read of [refinementList[attribute]] finds an inherited
    property, [getWidgetSearchParameters] returns a state whose
    [maxValuesPerFacet] is the maximum of the input's (0 when unset) and of
    [showMore ? showMoreLimit : limit]; so it never decreases the field,
    and applying the projection a second time with the same UI state leaves
    the field as the first application set it. *)
Theorem getWidgetSearchParameters_maxValuesPerFacet s uiState :
  readRefinementList uiState (attribute o) ≠ InheritedProperty →
  ∃ s1 s2,
    getWidgetSearchParameters o s uiState = Ok s1
    ∧ getWidgetSearchParameters o s1 uiState = Ok s2
    ∧ maxValuesPerFacet s1
      = Some (Z.max (default 0%Z (maxValuesPerFacet s))
                (if showMore o then showMoreLimit o else limit o))
    ∧ (default 0 (maxValuesPerFacet s) ≤ default 0 (maxValuesPerFacet s1))%Z
    ∧ maxValuesPerFacet s2 = maxValuesPerFacet s1.
Proof.
  intros Hread.
  eexists _, _. split; [by apply getWidgetSearchParameters_normal|].
  split; [by apply getWidgetSearchParameters_normal|].
  rewrite !maxValuesPerFacet_with_channelMap, !prepared_maxValuesPerFacet.
  rewrite maxValuesPerFacet_with_channelMap, prepared_maxValuesPerFacet.
  fold (requested o). simpl. repeat split; [lia|]. f_equal. lia.
Qed.

Lemma with_channelMap_id s : with_channelMap o (channelMap o s) s = s.
Proof.
  unfold with_channelMap, channelMap.
  destruct (String.eqb (operator o) "or");
    [apply with_disjunctiveFacetsRefinements_id
    |apply with_facetsRefinements_id].
Qed.

(** What [getWidgetState] leaves under [refinementList] for each
    attribute. *)
Lemma getWidgetState_uiValues uiState s b :
  uiValues (getWidgetState o uiState s) b
  = match channelRefinements o s with
    | [] => uiValues uiState b
    | _ :: _ =>
        if decide (b = attribute o) then Some (channelRefinements o s)
        else uiValues uiState b
    end.
Proof.
  unfold getWidgetState. fold (channelRefinements o s).
  destruct (channelRefinements o s) as [|v values]; [done|]. simpl.
  unfold uiValues. simpl. rewrite lookup_insert.
  destruct (decide (attribute o = b)) as [->|Hne].
  - by rewrite decide_True.
  - rewrite decide_False by done. by destruct (refinementList uiState).
Qed.

(** C7. When the channel selected by the operator holds no value for the
    attribute, [getWidgetState] returns the UI state it was given;
    otherwise the result carries the values under
    [refinementList[attribute]] and agrees with the given UI state on every
    other attribute of [refinementList] and on every other category. *)
Theorem getWidgetState_frame uiState s :
  (channelRefinements o s = [] → getWidgetState o uiState s = uiState)
  ∧ (channelRefinements o s ≠ [] →
     uiValues (getWidgetState o uiState s) (attribute o)
     = Some (channelRefinements o s)
     ∧ (∀ b, b ≠ attribute o →
             uiValues (getWidgetState o uiState s) b = uiValues uiState b)
     ∧ configure (getWidgetState o uiState s) = configure uiState
     ∧ otherCategories (getWidgetState o uiState s)
       = otherCategories uiState).
Proof.
  split.
  - intros Hnil. unfold getWidgetState. fold (channelRefinements o s).
    by rewrite Hnil.
  - intros Hne. split; [|split].
    + rewrite getWidgetState_uiValues.
      destruct (channelRefinements o s); [done|]. by rewrite decide_True.
    + intros b Hb. rewrite getWidgetState_uiValues.
      destruct (channelRefinements o s); [done|]. by rewrite decide_False.
    + unfold getWidgetState. fold (channelRefinements o s).
      by destruct (channelRefinements o s).
Qed.

Lemma readRefinementList_getWidgetState uiState s :
  readRefinementList (getWidgetState o uiState s) (attribute o)
  = match channelRefinements o s with
    | [] => readRefinementList uiState (attribute o)
    | v :: values => OwnProperty (v :: values)
    end.
Proof.
  pose proof (getWidgetState_uiValues uiState s (attribute o)) as Hui.
  destruct (channelRefinements o s) as [|v values] eqn:Hvalues.
  - unfold getWidgetState. fold (channelRefinements o s). by rewrite Hvalues.
  - rewrite decide_True in Hui by done.
    by apply uiValues_readRefinementList.
Qed.

(** C2. Round trip: the UI state [getWidgetState] produces from a query
    state, given to [getWidgetSearchParameters] (on any query state),
    yields a query state whose refinement values for the attribute, on the
    channel of the operator, are as a set those of the original query
    state, provided the original query state refines the attribute by at
    least one value or reading [refinementList[attribute]] on the UI state
    handed to [getWidgetState] yields [undefined]. *)
Theorem getWidgetState_getWidgetSearchParameters_roundtrip
    s base uiState :
  channelRefinements o s ≠ []
  ∨ readRefinementList uiState (attribute o) = NoProperty →
  ∃ s',
    getWidgetSearchParameters o base (getWidgetState o uiState s) = Ok s'
    ∧ list_to_set (channelRefinements o s')
      =@{gset string} list_to_set (channelRefinements o s).
Proof.
  intros Hpre.
  pose proof (readRefinementList_getWidgetState uiState s) as Hread.
  pose proof (readRefinementList_uiValues uiState (attribute o)) as Hnone.
  eexists. split.
  { apply getWidgetSearchParameters_normal. rewrite Hread.
    destruct (channelRefinements o s); [|done].
    destruct Hpre as [?| ->]; done. }
  rewrite channelRefinements_with_channelMap, getWidgetState_uiValues.
  rewrite prepared_channelMap.
  destruct (channelRefinements o s) as [|v values] eqn:Hvalues.
  - destruct Hpre as [?|Hno]; [done|]. rewrite Hno in Hnone.
    rewrite Hnone. by rewrite lookup_insert_eq.
  - rewrite decide_True by done. apply set_eq. intros x.
    rewrite !elem_of_list_to_set, fold_addRefinement_elem.
    rewrite lookup_delete_eq. simpl. rewrite elem_of_nil. tauto.
Qed.

(** X28. A present but empty array under [refinementList[attribute]] goes
    through the fold: the result is the state reached before the values
    are looked at, it has no refinement value for the attribute, and the
    refinement map of the channel has no entry for the attribute.  When
    reading [refinementList[attribute]] yields [undefined] the map holds an
    explicit empty array instead. *)
Theorem getWidgetSearchParameters_empty_array s uiState :
  (uiValues uiState (attribute o) = Some [] →
   getWidgetSearchParameters o s uiState = Ok (prepared o s)
   ∧ channelRefinements o (prepared o s) = []
   ∧ channelMap o (prepared o s) !! attribute o = None)
  ∧ (readRefinementList uiState (attribute o) = NoProperty →
     ∃ s', getWidgetSearchParameters o s uiState = Ok s'
           ∧ channelRefinements o s' = []
           ∧ channelMap o s' !! attribute o = Some []).
Proof.
  split; intros Hui.
  - rewrite getWidgetSearchParameters_normal, Hui
      by (by rewrite (uiValues_readRefinementList _ _ _ Hui)).
    simpl. rewrite with_channelMap_id. split; [done|].
    rewrite <- (with_channelMap_id (prepared o s)) at 1.
    rewrite channelRefinements_with_channelMap, prepared_channelMap.
    by rewrite lookup_delete_eq.
  - pose proof (readRefinementList_uiValues uiState (attribute o)) as Hnone.
    rewrite Hui in Hnone.
    eexists. split;
      [apply getWidgetSearchParameters_normal; by rewrite Hui|].
    rewrite Hnone, channelRefinements_with_channelMap,
      channelMap_with_channelMap.
    by rewrite lookup_insert_eq.
Qed.

(** C8. [dispose] returns a state (it cannot throw), and with operator
    [and] that state has [maxValuesPerFacet] unset, does not declare the
    attribute as a conjunctive facet, and declares the same disjunctive
    facets as before, whether or not the attribute was declared; with
    operator [or] the two channels are exchanged. *)
Theorem dispose_unregisters s :
  (operator o = "and" →
   maxValuesPerFacet (fst (dispose o s)) = None
   ∧ (attribute o ∉ facets (fst (dispose o s)))
   ∧ disjunctiveFacets (fst (dispose o s)) = disjunctiveFacets s)
  ∧ (operator o = "or" →
     maxValuesPerFacet (fst (dispose o s)) = None
     ∧ (attribute o ∉ disjunctiveFacets (fst (dispose o s)))
     ∧ facets (fst (dispose o s)) = facets s).
Proof.
  unfold dispose, SP.removeFacet, SP.removeDisjunctiveFacet,
    SP.isConjunctiveFacet, SP.isDisjunctiveFacet.
  split; intros ->; simpl; case_bool_decide as Hin; simpl;
    (split; [done|]); (split; [|done]);
    try exact Hin; rewrite list_elem_of_filter; tauto.
Qed.

End projector.

(** ** Construction *)

Lemma operator_matches_spec (op : string) :
  operator_matches op = true ↔ op = "and" ∨ op = "or".
Proof.
  unfold operator_matches. by rewrite orb_true_iff, !String.eqb_eq.
Qed.

(** The factory either rejects invalid parameters or accepts valid ones. *)
Lemma connectRefinementList_cases (widgetParams : WidgetParams) :
  (invalidParams widgetParams
   ∧ ∃ msg, connectRefinementList widgetParams = Throw msg)
  ∨ (¬ invalidParams widgetParams
     ∧ ∃ o, connectRefinementList widgetParams = Ok o
            ∧ Some (attribute o) = wp_attribute widgetParams
            ∧ operator o = default "or" (wp_operator widgetParams)
            ∧ limit o = default 10%Z (wp_limit widgetParams)
            ∧ showMore o = default false (wp_showMore widgetParams)
            ∧ showMoreLimit o = default 20%Z (wp_showMoreLimit widgetParams)).
Proof.
  unfold connectRefinementList, invalidParams.
  pose proof (operator_matches_spec (default "or" (wp_operator widgetParams)))
    as Hop.
  destruct (wp_attribute widgetParams) as [[|c a]|].
  - left. eauto.
  - destruct (operator_matches _) eqn:Eop; simpl.
    + destruct (default false (wp_showMore widgetParams)); simpl.
      * destruct (Z.leb_spec (default 20%Z (wp_showMoreLimit widgetParams))
                    (default 10%Z (wp_limit widgetParams))).
        -- left. eauto 10.
        -- right. split; [|by eauto 10].
           intros [[?|?]|[[? ?]|[? ?]]]; try done; [tauto|lia].
      * right. split; [|by eauto 10].
        intros [[?|?]|[[? ?]|[? ?]]]; try done; tauto.
    + left. split; [|by eauto]. right. left.
      split; intros Heq; assert (false = true); try done;
        apply Hop; auto.
  - left. eauto.
Qed.

(** C4. The widget factory throws exactly when the attribute is missing or
    empty, or the operator (after its default) is neither [and] nor [or], or
    [showMore] is set with [showMoreLimit <= limit]; for any other
    parameters it returns the widget's options with the defaults filled in.
    The factory is a function of the parameters alone: it makes no call to
    the outside world and changes no state. *)
Theorem connectRefinementList_validation (widgetParams : WidgetParams) :
  ((∃ msg, connectRefinementList widgetParams = Throw msg)
   ↔ invalidParams widgetParams)
  ∧ ((∃ o, connectRefinementList widgetParams = Ok o
           ∧ Some (attribute o) = wp_attribute widgetParams
           ∧ operator o = default "or" (wp_operator widgetParams)
           ∧ limit o = default 10%Z (wp_limit widgetParams)
           ∧ showMore o = default false (wp_showMore widgetParams)
           ∧ showMoreLimit o = default 20%Z (wp_showMoreLimit widgetParams))
     ↔ ¬ invalidParams widgetParams).
Proof.
  destruct (connectRefinementList_cases widgetParams)
    as [[Hinv [msg Hthrow]]|[Hvalid (o & Hok & Hfields)]].
  - split; split; try done; eauto.
    intros (o & Hok & _). congruence.
  - split; split; try done; eauto.
    intros [msg Hthrow]. congruence.
Qed.

(** ** Rendering *)

Section rendering.
Context (o : Options).
Implicit Types (w : WidgetState) (r : RenderOptions) (s : SearchParameters).

Lemma getCurrentLimit_widget_render w r :
  getCurrentLimit o (fst (widget_render o w r)) = getCurrentLimit o w.
Proof. done. Qed.

Lemma widget_render_events w r :
  snd (widget_render o w r)
  = render o (fst (widget_render o w r))
      (lastResultsFromMainSearch (fst (widget_render o w r))) (state r)
      (searchForFacetValues w) false false.
Proof. done. Qed.

(** C1. After the widget's [render], the exhaustiveness flag is
    [returned <= currentLimit] when the state's [maxValuesPerFacet] is
    strictly greater than the current limit, and [returned < currentLimit]
    otherwise (also when it is unset), where [returned] counts the facet
    values the results return.  The payload of that render carries the
    flag.  With a current limit of 2 and [maxValuesPerFacet] at most 2 or
    unset, 3 returned values give [false]; 1 returned value gives [true]. *)
Theorem widget_render_hasExhaustiveItems w r :
  let returned := Z.of_nat (length (facetValuesReturned o r)) in
  let currentLimit := getCurrentLimit o w in
  let w' := fst (widget_render o w r) in
  hasExhaustiveItems w'
  = (if js_gt (maxValuesPerFacet (state r)) currentLimit
     then bool_decide (returned ≤ currentLimit)%Z
     else bool_decide (returned < currentLimit)%Z)
  ∧ getCurrentLimit o w' = currentLimit
  ∧ (∃ p, snd (widget_render o w r) = [RenderFn p false]
          ∧ pl_isFromSearch p = false
          ∧ pl_hasExhaustiveItems p = hasExhaustiveItems w')
  ∧ (currentLimit = 2%Z →
     (∀ m, maxValuesPerFacet (state r) = Some m → (m ≤ 2)%Z) →
     returned = 3%Z → hasExhaustiveItems w' = false)
  ∧ (currentLimit = 2%Z → returned = 1%Z → hasExhaustiveItems w' = true).
Proof.
  intros returned currentLimit w'.
  assert (Hflag : hasExhaustiveItems w'
    = (if js_gt (maxValuesPerFacet (state r)) currentLimit
       then bool_decide (returned ≤ currentLimit)%Z
       else bool_decide (returned < currentLimit)%Z)).
  { subst w' returned currentLimit. unfold widget_render. simpl.
    fold (facetValuesReturned o r).
    change (getCurrentLimit o (setToggleShowMore r w))
      with (getCurrentLimit o w).
    destruct (js_gt _ _).
    - destruct (Z.leb_spec (Z.of_nat (length (facetValuesReturned o r)))
                  (getCurrentLimit o w)).
      + by rewrite bool_decide_eq_true_2.
      + rewrite bool_decide_eq_false_2; [done|lia].
    - destruct (Z.ltb_spec (Z.of_nat (length (facetValuesReturned o r)))
                  (getCurrentLimit o w)).
      + by rewrite bool_decide_eq_true_2.
      + rewrite bool_decide_eq_false_2; [done|lia]. }
  split; [exact Hflag|]. split; [done|]. split.
  { eexists. split; [reflexivity|]. split; reflexivity. }
  split.
  - intros Hlim Hmax Hret. rewrite Hflag, Hlim, Hret.
    assert (js_gt (maxValuesPerFacet (state r)) 2 = false) as ->.
    { destruct (maxValuesPerFacet (state r)) as [m|]; simpl; [|done].
      specialize (Hmax m eq_refl). apply Z.ltb_ge. lia. }
    apply bool_decide_eq_false. lia.
  - intros Hlim Hret. rewrite Hflag, Hlim, Hret.
    destruct (js_gt (maxValuesPerFacet (state r)) 2);
      apply bool_decide_eq_true; lia.
Qed.

(** C5. [searchForItems] with the empty query calls the rendering callback
    once, at once, with the cached items of the main search and
    [isFromSearch = false], and makes no other call; right after a primary
    render the cached items are those that render displayed.  With any other
    query it makes exactly one call, the sub-search of the client, with the
    attribute, the query, the current limit and the tags chosen by
    [escapeFacetValues]. *)
Theorem searchForItems_calls w s (query : string) :
  (∃ p, searchForItems o w s "" = [RenderFn p false]
        ∧ pl_items p = lastResultsFromMainSearch w
        ∧ pl_isFromSearch p = false)
  ∧ subSearches (searchForItems o w s "") = []
  ∧ (∀ r s', ∃ p p',
        snd (widget_render o w r) = [RenderFn p false]
        ∧ searchForItems o (fst (widget_render o w r)) s' ""
          = [RenderFn p' false]
        ∧ pl_items p' = pl_items p)
  ∧ (query ≠ "" →
     searchForItems o w s query
     = [SearchForFacetValues (attribute o) query (getCurrentLimit o w)
          (if escapeFacetValues o then TAG_PLACEHOLDER else TAG_REPLACEMENT)]).
Proof.
  split.
  { eexists. split; [reflexivity|]. split; reflexivity. }
  split; [reflexivity|]. split.
  { intros r s'. eexists _, _. split; [reflexivity|]. split; reflexivity. }
  intros Hq. unfold searchForItems.
  destruct (String.eqb_spec query ""); done.
Qed.

(** Every payload of the inner [render] satisfies the show-more equation on
    the closure variables it was built from. *)
Lemma render_canToggleShowMore w items s (b isFromSearch isFirst : bool) p :
  p ∈ payloads (render o w items s b isFromSearch isFirst) →
  pl_canToggleShowMore p
  = (showMore o && negb (pl_isFromSearch p) && negb (pl_hasExhaustiveItems p))
    || (pl_isShowingMore p
        && bool_decide
             (limit o < Z.of_nat (length (lastResultsFromMainSearch w)))%Z).
Proof.
  simpl. intros ->%list_elem_of_singleton. simpl.
  unfold canShowLess, canShowMore, getIsShowingMore.
  destruct (Z.ltb_spec (limit o)
              (Z.of_nat (length (lastResultsFromMainSearch w)))).
  - rewrite bool_decide_eq_true_2 by done. apply orb_comm.
  - rewrite bool_decide_eq_false_2 by lia. apply orb_comm.
Qed.

End rendering.

(** C6. Whatever is called on a widget, every payload it renders has
    [canToggleShowMore = canShowMore || canShowLess] with
    [canShowMore = showMore && !isFromSearch && !hasExhaustiveItems] and
    [canShowLess = isShowingMore && (cached main-search items) > limit], the
    cache being the one after the call.  In the scenario with three facet
    values, [limit = 2], [showMore = true] and [showMoreLimit = 5], the first
    render shows two items and the render triggered by [toggleShowMore] shows
    three with [isShowingMore], [canShowLess] and [canToggleShowMore] all
    true. *)
Theorem canToggleShowMore_spec :
  (∀ o w c p,
     p ∈ payloads (snd (step o w c)) →
     pl_canToggleShowMore p
     = (showMore o && negb (pl_isFromSearch p)
        && negb (pl_hasExhaustiveItems p))
       || (pl_isShowingMore p
           && bool_decide
                (limit o
                 < Z.of_nat (length (lastResultsFromMainSearch
                                       (fst (step o w c)))))%Z))
  ∧ connectRefinementList brandParams = Ok brandOptions
  ∧ (∀ s, ∃ w' p0 p1 p2,
       run brandOptions initialState
         [CallInit s; CallRender (brandResults s); CallToggleShowMore]
       = (w', [RenderFn p0 true; RenderFn p1 false; RenderFn p2 false])
       ∧ length (pl_items p1) = 2
       ∧ pl_isShowingMore p1 = false
       ∧ length (pl_items p2) = 3
       ∧ pl_isShowingMore p2 = true
       ∧ canShowLess brandOptions w' = true
       ∧ pl_canToggleShowMore p2 = true).
Proof.
  split; [|split; [done|]].
  - intros o w c p. destruct c; cbv beta iota delta [step].
    + exact (render_canToggleShowMore o (fst (init o w helperState))
               [] helperState true false true p).
    + rewrite widget_render_events. apply render_canToggleShowMore.
    + unfold toggleShowMore. cbv beta iota zeta.
      change (lastRender (mkWidgetState _ _ _ _ _ (lastRender w)))
        with (lastRender w).
      destruct (lastRender w) as [r|].
      * rewrite widget_render_events. apply render_canToggleShowMore.
      * by intros ?%elem_of_nil.
    + unfold searchForItems, fst, snd.
      destruct (String.eqb query "" && true).
      * apply render_canToggleShowMore.
      * by intros ?%elem_of_nil.
    + apply render_canToggleShowMore.
  - intros s. eexists _, _, _, _. split; [reflexivity|].
    repeat split; reflexivity.
Qed.

(** ** The configure connector *)

Section configure.
Context (widgetParams : Configure.ConfigureConnectorParams).
Implicit Types (s : SearchParameters) (uiState : UIState) (k : string).

Lemma lookup_spread {V} (a b : gmap string V) k :
  spread a b !! k = match b !! k with Some v => Some v | None => a !! k end.
Proof.
  unfold spread. rewrite lookup_union. by destruct (b !! k), (a !! k).
Qed.

(** The plain parameters after [getWidgetSearchParameters]: a key that the
    spread object defines is set to its value, any other key is kept. *)
Lemma getWidgetSearchParameters_lookup s uiState k :
  queryParameters (Configure.getWidgetSearchParameters widgetParams s uiState)
    !! k
  = match spread (default ∅ (configure uiState))
            (Configure.searchParameters widgetParams) !! k with
    | Some v => if is_defined v then Some v else queryParameters s !! k
    | None => queryParameters s !! k
    end.
Proof.
  unfold Configure.getWidgetSearchParameters, Configure.mergeSearchParameters,
    SP.fromPlain, SP.setQueryParameters.
  simpl. rewrite lookup_merge.
  set (m := spread _ _).
  destruct (m !! k) as [v|] eqn:Hm.
  - destruct (is_defined v) eqn:Hv.
    + erewrite (proj2 (map_lookup_filter_Some _ m k v)) by done.
      by destruct v, (queryParameters s !! k).
    + rewrite (proj2 (map_lookup_filter_None _ m k)).
      * by destruct (queryParameters s !! k).
      * right. intros v0 Hv0. simpl. congruence.
  - rewrite (proj2 (map_lookup_filter_None _ m k)) by by left.
    by destruct (queryParameters s !! k).
Qed.

(** C9. For a key held both by the widget's stored parameters and by
    [uiState.configure], the stored value wins: [getWidgetState] writes it
    under [configure], and [getWidgetSearchParameters] sets it on the query
    state (a stored [undefined] sets nothing), whatever value the UI state
    held. *)
Theorem configure_stored_parameters_win s uiState k (v v' : PValue) :
  Configure.searchParameters widgetParams !! k = Some v →
  configure uiState ≫= (.!! k) = Some v' →
  configure (Configure.getWidgetState widgetParams uiState) ≫= (.!! k) = Some v
  ∧ queryParameters
      (Configure.getWidgetSearchParameters widgetParams s uiState) !! k
    = (if is_defined v then Some v else queryParameters s !! k).
Proof.
  intros Hv _. split.
  - simpl. by rewrite lookup_spread, Hv.
  - by rewrite getWidgetSearchParameters_lookup, lookup_spread, Hv.
Qed.

End configure.

(** ** The scenarios on the attribute [brand] *)

(** [limit = 2] without [showMore]: the first two facet values are rendered,
    refinement is possible and the show-more toggle is not. *)
Example render_brand_without_showMore :
  payloads
    (snd (widget_render
            (mkOptions "brand" "or" 2 false 20 [] true (λ items, items))
            initialState (brandResults SP.empty)))
  = [ {| pl_items := [mkItem "Apple" "Apple" "Apple" 10 false;
                      mkItem "Samsung" "Samsung" "Samsung" 5 false];
         pl_searchForItems := None;
         pl_isFromSearch := false;
         pl_canRefine := true;
         pl_isShowingMore := false;
         pl_canToggleShowMore := false;
         pl_hasExhaustiveItems := false |} ].
Proof. reflexivity. Qed.

(** [refinementList.brand = ['Apple']] with the operator [or]: [brand] is
    declared as a disjunctive facet refined by [Apple], and
    [maxValuesPerFacet] is raised to the requested limit. *)
Example getWidgetSearchParameters_brand_Apple :
  getWidgetSearchParameters
    (mkOptions "brand" "or" 10 false 20 [] true (λ items, items))
    (mkSearchParameters [] [] ∅ ∅ (Some 3%Z) ∅)
    (mkUIState (Some {["brand" := ["Apple"]]}) None ∅)
  = Ok (mkSearchParameters [] ["brand"] ∅ {["brand" := ["Apple"]]}
          (Some 10%Z) ∅).
Proof. vm_compute. reflexivity. Qed.

(** Disposing of the conjunctive widget drops the declaration, the
    refinements and [maxValuesPerFacet], and nothing else. *)
Example dispose_brand_and :
  dispose brandAndOptions brandAndState
  = (mkSearchParameters [] ["color"] ∅ ∅ None ∅, [UnmountFn]).
Proof. vm_compute. reflexivity. Qed.

(** ** Concrete instances *)

Lemma widget_render_hasExhaustiveItems_brand :
  hasExhaustiveItems
    (fst (widget_render brandOptions initialState (brandResults SP.empty)))
  = false
  ∧ hasExhaustiveItems
      (fst (widget_render brandOptions initialState
              (mkRenderOptions (λ _ _, Some [mkFacetValue "Apple" 10 false])
                 brandState)))
    = true.
Proof.
  split.
  - destruct (widget_render_hasExhaustiveItems brandOptions initialState
                (brandResults SP.empty)) as (_ & _ & _ & H & _).
    apply H; [reflexivity| |reflexivity]. intros m Hm. discriminate Hm.
  - destruct (widget_render_hasExhaustiveItems brandOptions initialState
                (mkRenderOptions (λ _ _, Some [mkFacetValue "Apple" 10 false])
                   brandState)) as (_ & _ & _ & _ & H).
    apply H; reflexivity.
Defined.

Lemma roundtrip_brand :
  ∃ s',
    getWidgetSearchParameters brandOptions SP.empty
      (getWidgetState brandOptions emptyUIState brandState) = Ok s'
    ∧ list_to_set (channelRefinements brandOptions s')
      =@{gset string} list_to_set (channelRefinements brandOptions brandState).
Proof.
  apply (getWidgetState_getWidgetSearchParameters_roundtrip
           brandOptions brandState SP.empty emptyUIState).
  right. reflexivity.
Defined.

Lemma connectRefinementList_validation_brand :
  (∃ msg,
     connectRefinementList
       (mkWidgetParams (Some "brand") (Some "or") (Some 2%Z) (Some true)
          (Some 2%Z) None None None) = Throw msg)
  ∧ (∃ o, connectRefinementList brandParams = Ok o
          ∧ Some (attribute o) = wp_attribute brandParams
          ∧ operator o = default "or" (wp_operator brandParams)
          ∧ limit o = default 10%Z (wp_limit brandParams)
          ∧ showMore o = default false (wp_showMore brandParams)
          ∧ showMoreLimit o = default 20%Z (wp_showMoreLimit brandParams)).
Proof.
  split.
  - apply (proj1 (connectRefinementList_validation _)).
    right. right. split; [reflexivity|]. simpl. lia.
  - apply (proj2 (connectRefinementList_validation brandParams)).
    intros [[H|H]|[[H1 H2]|[H1 H2]]].
    + discriminate H.
    + discriminate H.
    + apply H2. reflexivity.
    + simpl in H2. lia.
Defined.

Lemma searchForItems_calls_brand :
  searchForItems brandOptions initialState SP.empty "app"
  = [SearchForFacetValues "brand" "app" 2 TAG_PLACEHOLDER].
Proof.
  destruct (searchForItems_calls brandOptions initialState SP.empty "app")
    as (_ & _ & _ & H).
  apply H. discriminate.
Defined.

Lemma canToggleShowMore_brand :
  ∃ p,
    p ∈ payloads
          (snd (step brandOptions initialState
                  (CallRender (brandResults SP.empty))))
    ∧ pl_canToggleShowMore p = true.
Proof.
  eexists. split.
  - simpl. constructor.
  - rewrite (proj1 canToggleShowMore_spec brandOptions initialState
               (CallRender (brandResults SP.empty))).
    + reflexivity.
    + simpl. constructor.
Defined.

Lemma getWidgetState_frame_brand :
  getWidgetState brandOptions emptyUIState SP.empty = emptyUIState
  ∧ uiValues (getWidgetState brandOptions emptyUIState brandState) "brand"
    = Some ["Apple"; "Sony"]
  ∧ configure (getWidgetState brandOptions emptyUIState brandState) = None.
Proof.
  split.
  - apply (proj1 (getWidgetState_frame brandOptions emptyUIState SP.empty)).
    reflexivity.
  - destruct (proj2 (getWidgetState_frame brandOptions emptyUIState brandState))
      as (H1 & _ & H2 & _).
    + vm_compute. discriminate.
    + split; [exact H1|exact H2].
Defined.

Lemma dispose_unregisters_brand :
  (maxValuesPerFacet (fst (dispose brandAndOptions brandAndState)) = None
   ∧ ("brand" ∉ facets (fst (dispose brandAndOptions brandAndState)))
   ∧ disjunctiveFacets (fst (dispose brandAndOptions brandAndState))
     = ["color"])
  ∧ (maxValuesPerFacet (fst (dispose brandOptions brandState)) = None
     ∧ ("brand" ∉ disjunctiveFacets (fst (dispose brandOptions brandState)))
     ∧ facets (fst (dispose brandOptions brandState)) = []).
Proof.
  split.
  - apply (proj1 (dispose_unregisters brandAndOptions brandAndState)).
    reflexivity.
  - apply (proj2 (dispose_unregisters brandOptions brandState)).
    reflexivity.
Defined.

Lemma configure_stored_parameters_win_hitsPerPage :
  configure
    (Configure.getWidgetState
       (Configure.mkParams {["hitsPerPage" := PNum 5]})
       (mkUIState None (Some {["hitsPerPage" := PNum 20]}) ∅))
    ≫= (.!! "hitsPerPage") = Some (PNum 5)
  ∧ queryParameters
      (Configure.getWidgetSearchParameters
         (Configure.mkParams {["hitsPerPage" := PNum 5]}) SP.empty
         (mkUIState None (Some {["hitsPerPage" := PNum 20]}) ∅))
      !! "hitsPerPage" = Some (PNum 5).
Proof.
  apply (configure_stored_parameters_win
           (Configure.mkParams {["hitsPerPage" := PNum 5]}) SP.empty
           (mkUIState None (Some {["hitsPerPage" := PNum 20]}) ∅)
           "hitsPerPage" (PNum 5) (PNum 20)).
  - vm_compute. reflexivity.
  - vm_compute. reflexivity.
Defined.

Lemma getWidgetSearchParameters_empty_array_brand :
  (getWidgetSearchParameters brandOptions brandState
     (mkUIState (Some {["brand" := []]}) None ∅)
   = Ok (prepared brandOptions brandState)
   ∧ channelRefinements brandOptions (prepared brandOptions brandState) = []
   ∧ channelMap brandOptions (prepared brandOptions brandState) !! "brand"
     = None)
  ∧ (∃ s', getWidgetSearchParameters brandOptions brandState emptyUIState
           = Ok s'
           ∧ channelRefinements brandOptions s' = []
           ∧ channelMap brandOptions s' !! "brand" = Some []).
Proof.
  split.
  - apply (proj1 (getWidgetSearchParameters_empty_array brandOptions brandState
                    (mkUIState (Some {["brand" := []]}) None ∅))).
    vm_compute. reflexivity.
  - apply (proj2 (getWidgetSearchParameters_empty_array brandOptions brandState
                    emptyUIState)).
    reflexivity.
Defined.

(** * Further properties *)

(** ** The projector, field by field *)

Section projector_fields.
Context (o : Options).
Implicit Types (s : SearchParameters) (uiState : UIState)
  (m : gmap string (list string)).

Lemma fold_addRefinement_lookup_ne a b values : ∀ m,
  a ≠ b →
  foldl (λ m v, SP.addRefinement m a v) m values !! b = m !! b.
Proof.
  induction values as [|v values IH]; intros m Hne; simpl; [done|].
  rewrite IH by done. by apply addRefinement_lookup_ne.
Qed.

(** One folded value appends to the attribute's array at most once. *)
Lemma addRefinement_addOnce m a v :
  default [] (SP.addRefinement m a v !! a) = addOnce (default [] (m !! a)) v.
Proof.
  unfold SP.addRefinement, SP.isRefined, addOnce.
  case_bool_decide; [done|]. by rewrite lookup_insert_eq.
Qed.

Lemma fold_addRefinement_addOnce a values : ∀ m,
  default [] (foldl (λ m v, SP.addRefinement m a v) m values !! a)
  = foldl addOnce (default [] (m !! a)) values.
Proof.
  induction values as [|v values IH]; intros m; simpl; [done|].
  by rewrite IH, addRefinement_addOnce.
Qed.

Lemma foldl_addOnce_NoDup values : ∀ l,
  NoDup (l ++ values) → foldl addOnce l values = l ++ values.
Proof.
  induction values as [|v values IH]; intros l Hnd; simpl.
  - by rewrite app_nil_r.
  - unfold addOnce at 2. rewrite bool_decide_eq_false_2.
    + rewrite IH; rewrite <- app_assoc; done.
    + apply NoDup_app in Hnd as (_ & Hdisj & _). intros Hin.
      apply (Hdisj v Hin). left.
Qed.

Lemma foldl_addOnce_elem values : ∀ l x,
  x ∈ foldl addOnce l values ↔ x ∈ l ∨ x ∈ values.
Proof.
  induction values as [|v values IH]; intros l x; simpl.
  - rewrite elem_of_nil. tauto.
  - rewrite IH, elem_of_cons. unfold addOnce. case_bool_decide.
    + split; [tauto|]. intros [?|[->|?]]; tauto.
    + rewrite elem_of_app, list_elem_of_singleton. tauto.
Qed.

Lemma foldl_addOnce_keeps_NoDup values : ∀ l,
  NoDup l → NoDup (foldl addOnce l values).
Proof.
  induction values as [|v values IH]; intros l Hnd; simpl; [done|].
  apply IH. unfold addOnce. case_bool_decide; [done|].
  apply NoDup_app. split; [done|]. split; [|apply NoDup_singleton].
  intros x Hx ->%list_elem_of_singleton. done.
Qed.

Lemma projectedMap_lookup_ne uiState m b :
  b ≠ attribute o → projectedMap o uiState m !! b = m !! b.
Proof.
  intros Hne. unfold projectedMap.
  destruct (uiValues uiState (attribute o)).
  - rewrite fold_addRefinement_lookup_ne by done. by rewrite lookup_delete_ne.
  - rewrite lookup_insert_ne by done. by rewrite lookup_delete_ne.
Qed.

Lemma projectedMap_lookup uiState m :
  default [] (projectedMap o uiState m !! attribute o)
  = match uiValues uiState (attribute o) with
    | None => []
    | Some values => foldl addOnce [] values
    end.
Proof.
  unfold projectedMap. destruct (uiValues uiState (attribute o)).
  - by rewrite fold_addRefinement_addOnce, lookup_delete_eq.
  - by rewrite lookup_insert_eq.
Qed.

(** The projected map does not depend on the entry it replaces. *)
Lemma projectedMap_delete uiState m :
  projectedMap o uiState (delete (attribute o) m) = projectedMap o uiState m.
Proof. unfold projectedMap. by rewrite delete_delete_eq. Qed.

Lemma delete_projectedMap uiState m :
  delete (attribute o) (projectedMap o uiState m) = delete (attribute o) m.
Proof.
  apply map_eq. intros b. destruct (decide (b = attribute o)) as [->|Hne].
  - by rewrite !lookup_delete_eq.
  - rewrite !lookup_delete_ne by done. by apply projectedMap_lookup_ne.
Qed.

(** A query state is its fields, read through the operator. *)
Lemma SearchParameters_ext s1 s2 :
  channelMap o s1 = channelMap o s2 →
  otherMap o s1 = otherMap o s2 →
  channelFacets o s1 = channelFacets o s2 →
  otherFacets o s1 = otherFacets o s2 →
  maxValuesPerFacet s1 = maxValuesPerFacet s2 →
  queryParameters s1 = queryParameters s2 →
  s1 = s2.
Proof.
  unfold channelMap, otherMap, channelFacets, otherFacets.
  destruct s1, s2; simpl.
  destruct (String.eqb (operator o) "or"); congruence.
Qed.

(** Every field of the state [getWidgetSearchParameters] returns. *)
Lemma getWidgetSearchParameters_fields s uiState :
  readRefinementList uiState (attribute o) ≠ InheritedProperty →
  ∃ r,
    getWidgetSearchParameters o s uiState = Ok r
    ∧ channelMap o r = projectedMap o uiState (channelMap o s)
    ∧ otherMap o r = delete (attribute o) (otherMap o s)
    ∧ channelFacets o r
      = (if bool_decide (attribute o ∈ channelFacets o s)
         then channelFacets o s
         else channelFacets o s ++ [attribute o])
    ∧ otherFacets o r = otherFacets o s
    ∧ maxValuesPerFacet r
      = Some (Z.max (default 0%Z (maxValuesPerFacet s)) (requested o))
    ∧ queryParameters r = queryParameters s.
Proof.
  intros Hread.
  eexists. split; [by apply getWidgetSearchParameters_normal|].
  split.
  { by rewrite channelMap_with_channelMap, prepared_channelMap. }
  rewrite maxValuesPerFacet_with_channelMap, prepared_maxValuesPerFacet.
  unfold otherMap, channelFacets, otherFacets, with_channelMap, prepared,
    SP.addDisjunctiveFacet, SP.addFacet, SP.isDisjunctiveFacet,
    SP.isConjunctiveFacet.
  destruct (String.eqb (operator o) "or"); simpl;
    case_bool_decide; simpl; done.
Qed.

End projector_fields.

(** ** What the projector writes, keeps and forgets *)

Section projector_more.
Context (o : Options).
Implicit Types (s : SearchParameters) (uiState : UIState).

Lemma getWidgetSearchParameters_declared s uiState :
  readRefinementList uiState (attribute o) ≠ InheritedProperty →
  ∃ r,
    getWidgetSearchParameters o s uiState = Ok r
    ∧ attribute o ∈ channelFacets o r.
Proof.
  intros Hread.
  destruct (getWidgetSearchParameters_fields o s uiState Hread)
    as (r & Hr & _ & _ & Hcf & _).
  exists r. split; [done|].
  rewrite Hcf. case_bool_decide; [done|]. set_solver.
Qed.

(** X1. Unless the read of [refinementList[attribute]] finds an inherited
    property, [getWidgetSearchParameters] returns a state that declares the
    attribute as a facet of the operator's channel, once: a declared
    attribute leaves the list of facets as it is, an undeclared one is
    appended.  The facets of the other channel are not touched. *)
Theorem getWidgetSearchParameters_declares_facet s uiState :
  readRefinementList uiState (attribute o) ≠ InheritedProperty →
  ∃ r,
    getWidgetSearchParameters o s uiState = Ok r
    ∧ attribute o ∈ channelFacets o r
    ∧ channelFacets o r
      = (if bool_decide (attribute o ∈ channelFacets o s)
         then channelFacets o s
         else channelFacets o s ++ [attribute o])
    ∧ otherFacets o r = otherFacets o s.
Proof.
  intros Hread.
  destruct (getWidgetSearchParameters_fields o s uiState Hread)
    as (r & Hr & _ & _ & Hcf & Hof & _).
  exists r. split; [done|]. split; [|done].
  rewrite Hcf. case_bool_decide; [done|]. set_solver.
Qed.

(** X2. Unless the read of [refinementList[attribute]] finds an inherited
    property, [getWidgetSearchParameters] returns a state with the
    refinements of every other attribute, on both channels, and the plain
    query parameters as they were; the refinements the attribute had on the
    other channel are dropped. *)
Theorem getWidgetSearchParameters_frame s uiState :
  readRefinementList uiState (attribute o) ≠ InheritedProperty →
  ∃ r,
    getWidgetSearchParameters o s uiState = Ok r
    ∧ (∀ b, b ≠ attribute o →
            facetsRefinements r !! b = facetsRefinements s !! b
            ∧ disjunctiveFacetsRefinements r !! b
              = disjunctiveFacetsRefinements s !! b)
    ∧ otherMap o r !! attribute o = None
    ∧ queryParameters r = queryParameters s.
Proof.
  intros Hread.
  destruct (getWidgetSearchParameters_fields o s uiState Hread)
    as (r & Hr & Hcm & Hom & _ & _ & _ & Hqp).
  exists r. split; [done|]. split; [|split; [|done]].
  - intros b Hb.
    assert (channelMap o r !! b = channelMap o s !! b) as Hc.
    { rewrite Hcm. by apply projectedMap_lookup_ne. }
    assert (otherMap o r !! b = otherMap o s !! b) as Ho.
    { rewrite Hom. by rewrite lookup_delete_ne. }
    unfold channelMap, otherMap in Hc, Ho.
    by destruct (String.eqb (operator o) "or").
  - rewrite Hom. apply lookup_delete_eq.
Qed.

(** The values read back after [getWidgetSearchParameters]. *)
Lemma getWidgetSearchParameters_channelRefinements s uiState :
  readRefinementList uiState (attribute o) ≠ InheritedProperty →
  ∃ r,
    getWidgetSearchParameters o s uiState = Ok r
    ∧ channelRefinements o r
      = foldl addOnce [] (default [] (uiValues uiState (attribute o))).
Proof.
  intros Hread.
  eexists. split; [by apply getWidgetSearchParameters_normal|].
  rewrite channelRefinements_with_channelMap, prepared_channelMap.
  pose proof (projectedMap_lookup o uiState (channelMap o s)) as H.
  unfold projectedMap in H. rewrite H.
  by destruct (uiValues uiState (attribute o)).
Qed.

(** X3. Unless the read of [refinementList[attribute]] finds an inherited
    property, and whatever the query state held for the attribute,
    [getWidgetSearchParameters] returns a state in which the refinements of
    the attribute are the values of the UI state and nothing else, each of
    them once. *)
Theorem getWidgetSearchParameters_values s uiState :
  readRefinementList uiState (attribute o) ≠ InheritedProperty →
  ∃ r,
    getWidgetSearchParameters o s uiState = Ok r
    ∧ NoDup (channelRefinements o r)
    ∧ ∀ x, x ∈ channelRefinements o r
           ↔ x ∈ default [] (uiValues uiState (attribute o)).
Proof.
  intros Hread.
  destruct (getWidgetSearchParameters_channelRefinements s uiState Hread)
    as (r & Hr & Hcr).
  exists r. split; [done|]. rewrite Hcr. split.
  - apply foldl_addOnce_keeps_NoDup, NoDup_nil_2.
  - intros x. rewrite foldl_addOnce_elem, elem_of_nil. tauto.
Qed.

(** X4. Values without repetition are folded in the order of the UI state:
    the refinements read back are the array of the UI state itself. *)
Theorem getWidgetSearchParameters_keeps_order s uiState values :
  uiValues uiState (attribute o) = Some values →
  NoDup values →
  ∃ r,
    getWidgetSearchParameters o s uiState = Ok r
    ∧ channelRefinements o r = values.
Proof.
  intros Hui Hnd.
  assert (readRefinementList uiState (attribute o) ≠ InheritedProperty)
    as Hread by (by rewrite (uiValues_readRefinementList _ _ _ Hui)).
  destruct (getWidgetSearchParameters_channelRefinements s uiState Hread)
    as (r & Hr & Hcr).
  exists r. split; [done|]. rewrite Hcr, Hui. simpl.
  by rewrite foldl_addOnce_NoDup.
Qed.

(** X5. Unless the read of [refinementList[attribute]] finds an inherited
    property, applying [getWidgetSearchParameters] again with the same UI
    state changes nothing: the whole query state it returned is a fixed
    point, not only [maxValuesPerFacet]. *)
Theorem getWidgetSearchParameters_idempotent s uiState :
  readRefinementList uiState (attribute o) ≠ InheritedProperty →
  ∃ r,
    getWidgetSearchParameters o s uiState = Ok r
    ∧ getWidgetSearchParameters o r uiState = Ok r.
Proof.
  intros Hread.
  destruct (getWidgetSearchParameters_fields o s uiState Hread)
    as (r & Hr & Hcm & Hom & Hcf & Hof & Hmax & Hqp).
  assert (attribute o ∈ channelFacets o r) as Hin.
  { rewrite Hcf. case_bool_decide; [done|]. set_solver. }
  destruct (getWidgetSearchParameters_fields o r uiState Hread)
    as (r' & Hr' & Hcm' & Hom' & Hcf' & Hof' & Hmax' & Hqp').
  exists r. split; [done|]. rewrite Hr'. f_equal.
  apply (SearchParameters_ext o).
  - rewrite Hcm', Hcm.
    rewrite <- (projectedMap_delete o uiState (projectedMap _ _ _)).
    by rewrite delete_projectedMap, projectedMap_delete.
  - rewrite Hom', Hom. by rewrite delete_delete_eq.
  - rewrite Hcf'. by rewrite bool_decide_eq_true_2.
  - by rewrite Hof'.
  - rewrite Hmax', Hmax. simpl. f_equal. lia.
  - by rewrite Hqp'.
Qed.

(** X6. From the UI state to the query state and back, unless the read of
    [refinementList[attribute]] finds an inherited property: when the UI
    state lists values without repetition for the attribute,
    [getWidgetState] on the state [getWidgetSearchParameters] returned
    writes those values, in the same order, under
    [refinementList[attribute]]; when it lists none, [getWidgetState]
    returns the UI state it is given. *)
Theorem getWidgetSearchParameters_getWidgetState_roundtrip
    s uiState (uiState0 : UIState) :
  readRefinementList uiState (attribute o) ≠ InheritedProperty →
  NoDup (default [] (uiValues uiState (attribute o))) →
  ∃ r,
    getWidgetSearchParameters o s uiState = Ok r
    ∧ match default [] (uiValues uiState (attribute o)) with
      | [] => getWidgetState o uiState0 r = uiState0
      | v :: values =>
          uiValues (getWidgetState o uiState0 r) (attribute o)
          = Some (v :: values)
      end.
Proof.
  intros Hread Hnd.
  destruct (getWidgetSearchParameters_channelRefinements s uiState Hread)
    as (r & Hr & Hcr).
  exists r. split; [done|].
  rewrite foldl_addOnce_NoDup in Hcr by done. simpl in Hcr.
  destruct (default [] (uiValues uiState (attribute o))) as [|v values].
  - unfold getWidgetState. fold (channelRefinements o r). by rewrite Hcr.
  - rewrite getWidgetState_uiValues, Hcr. by rewrite decide_True.
Qed.

(** X7. [getWidgetState] is idempotent: writing the refinements of one
    query state into a UI state a second time returns the same UI state. *)
Theorem getWidgetState_idempotent uiState s :
  getWidgetState o (getWidgetState o uiState s) s
  = getWidgetState o uiState s.
Proof.
  unfold getWidgetState. fold (channelRefinements o s).
  destruct (channelRefinements o s) as [|v values]; [done|]. simpl.
  by rewrite insert_insert_eq.
Qed.

Lemma removeFacet_undeclared s a :
  a ∉ facets s → SP.removeFacet s a = s.
Proof.
  intros Hin. unfold SP.removeFacet, SP.isConjunctiveFacet.
  by rewrite bool_decide_eq_false_2.
Qed.

Lemma removeDisjunctiveFacet_undeclared s a :
  a ∉ disjunctiveFacets s → SP.removeDisjunctiveFacet s a = s.
Proof.
  intros Hin. unfold SP.removeDisjunctiveFacet, SP.isDisjunctiveFacet.
  by rewrite bool_decide_eq_false_2.
Qed.

Lemma removeFacet_facets s a :
  (a ∉ facets (SP.removeFacet s a))
  ∧ maxValuesPerFacet (SP.removeFacet s a) = maxValuesPerFacet s.
Proof.
  unfold SP.removeFacet, SP.isConjunctiveFacet.
  case_bool_decide; simpl; [|done].
  split; [|done]. rewrite list_elem_of_filter. tauto.
Qed.

Lemma removeDisjunctiveFacet_facets s a :
  (a ∉ disjunctiveFacets (SP.removeDisjunctiveFacet s a))
  ∧ maxValuesPerFacet (SP.removeDisjunctiveFacet s a) = maxValuesPerFacet s.
Proof.
  unfold SP.removeDisjunctiveFacet, SP.isDisjunctiveFacet.
  case_bool_decide; simpl; [|done].
  split; [|done]. rewrite list_elem_of_filter. tauto.
Qed.

Lemma setMaxValuesPerFacet_id s :
  SP.setMaxValuesPerFacet s (maxValuesPerFacet s) = s.
Proof. by destruct s. Qed.

(** X8. [dispose] is idempotent on the query state: disposing of the
    widget on an already stripped state returns that state. *)
Theorem dispose_idempotent s :
  fst (dispose o (fst (dispose o s))) = fst (dispose o s).
Proof.
  unfold dispose. destruct (String.eqb (operator o) "and"); cbn [fst].
  - set (d := SP.removeFacet (SP.setMaxValuesPerFacet s None) (attribute o)).
    destruct (removeFacet_facets (SP.setMaxValuesPerFacet s None)
                (attribute o)) as [Hin Hmax].
    fold d in Hin, Hmax. change (maxValuesPerFacet d = None) in Hmax.
    assert (SP.setMaxValuesPerFacet d None = d) as ->
      by (rewrite <- Hmax; apply setMaxValuesPerFacet_id).
    by apply removeFacet_undeclared.
  - set (d := SP.removeDisjunctiveFacet (SP.setMaxValuesPerFacet s None)
                (attribute o)).
    destruct (removeDisjunctiveFacet_facets (SP.setMaxValuesPerFacet s None)
                (attribute o)) as [Hin Hmax].
    fold d in Hin, Hmax. change (maxValuesPerFacet d = None) in Hmax.
    assert (SP.setMaxValuesPerFacet d None = d) as ->
      by (rewrite <- Hmax; apply setMaxValuesPerFacet_id).
    by apply removeDisjunctiveFacet_undeclared.
Qed.

(** X9. On a state that does not declare the attribute on the operator's
    channel, [dispose] only unsets [maxValuesPerFacet]: facets, refinements
    and plain parameters are returned as they were. *)
Theorem dispose_undeclared s :
  operator o = "and" ∨ operator o = "or" →
  attribute o ∉ channelFacets o s →
  fst (dispose o s) = SP.setMaxValuesPerFacet s None.
Proof.
  unfold channelFacets, dispose, SP.removeFacet, SP.removeDisjunctiveFacet,
    SP.isConjunctiveFacet, SP.isDisjunctiveFacet.
  intros [->| ->]; simpl; intros Hin; by rewrite bool_decide_eq_false_2.
Qed.

(** X10. Unless the read of [refinementList[attribute]] finds an
    inherited property, disposing of the widget after
    [getWidgetSearchParameters] strips what the projection wrote: the
    attribute is no longer declared on the operator's channel, it has no
    entry in either refinement map, and [maxValuesPerFacet] is unset. *)
Theorem dispose_after_getWidgetSearchParameters s uiState :
  operator o = "and" ∨ operator o = "or" →
  readRefinementList uiState (attribute o) ≠ InheritedProperty →
  ∃ r,
    getWidgetSearchParameters o s uiState = Ok r
    ∧ (attribute o ∉ channelFacets o (fst (dispose o r)))
    ∧ facetsRefinements (fst (dispose o r)) !! attribute o = None
    ∧ disjunctiveFacetsRefinements (fst (dispose o r)) !! attribute o = None
    ∧ maxValuesPerFacet (fst (dispose o r)) = None.
Proof.
  intros Hop Hread.
  destruct (getWidgetSearchParameters_declared s uiState Hread)
    as (r & Hr & Hin).
  exists r. split; [done|]. revert Hin.
  unfold channelFacets, dispose, SP.removeFacet, SP.removeDisjunctiveFacet,
    SP.isConjunctiveFacet, SP.isDisjunctiveFacet.
  destruct Hop as [->| ->]; simpl; intros Hin;
    rewrite bool_decide_eq_true_2 by done; simpl;
    rewrite !lookup_delete_eq, list_elem_of_filter; tauto.
Qed.

End projector_more.

(** ** Rendering, call by call *)

Section rendering_more.
Context (o : Options).
Implicit Types (w : WidgetState) (r : RenderOptions) (s : SearchParameters)
  (c : Call).

Lemma widget_render_cache w r :
  lastResultsFromMainSearch (fst (widget_render o w r))
  = transformItems o
      (formatItems <$> slice0 (facetValuesReturned o r) (getCurrentLimit o w)).
Proof. done. Qed.

Lemma widget_render_flags w r :
  isShowingMore (fst (widget_render o w r)) = isShowingMore w
  ∧ searchForFacetValues (fst (widget_render o w r)) = searchForFacetValues w
  ∧ lastRender (fst (widget_render o w r)) = Some r.
Proof. done. Qed.

Lemma slice0_nonneg {A} (l : list A) (e : Z) :
  (0 ≤ e)%Z → slice0 l e = take (Z.to_nat e) l.
Proof.
  intros He. unfold slice0. destruct (Z.ltb_spec e 0); [lia|done].
Qed.

Lemma widget_render_flag_cases w r :
  hasExhaustiveItems (fst (widget_render o w r))
  = (Z.of_nat (length (facetValuesReturned o r)) <=? getCurrentLimit o w)%Z
  ∨ hasExhaustiveItems (fst (widget_render o w r))
    = (Z.of_nat (length (facetValuesReturned o r)) <? getCurrentLimit o w)%Z.
Proof.
  unfold widget_render. cbn [fst hasExhaustiveItems].
  fold (facetValuesReturned o r).
  change (getCurrentLimit o (setToggleShowMore r w))
    with (getCurrentLimit o w).
  destruct (js_gt _ _); [by left|by right].
Qed.

(** X11. With the default [transformItems] and a current limit that is not
    negative, the widget's [render] displays the first [currentLimit] facet
    values, formatted, and caches what it displays; it displays
    [min(returned, currentLimit)] items, so [canRefine] holds exactly when
    a facet value was returned and the limit is positive. *)
Theorem widget_render_items w r :
  (∀ items, transformItems o items = items) →
  (0 ≤ getCurrentLimit o w)%Z →
  ∃ p,
    snd (widget_render o w r) = [RenderFn p false]
    ∧ pl_items p
      = formatItems
        <$> take (Z.to_nat (getCurrentLimit o w)) (facetValuesReturned o r)
    ∧ length (pl_items p)
      = min (length (facetValuesReturned o r))
            (Z.to_nat (getCurrentLimit o w))
    ∧ lastResultsFromMainSearch (fst (widget_render o w r)) = pl_items p
    ∧ (pl_canRefine p = true
       ↔ facetValuesReturned o r ≠ [] ∧ (0 < getCurrentLimit o w)%Z).
Proof.
  intros Hid Hlim.
  assert (Hitems : lastResultsFromMainSearch (fst (widget_render o w r))
    = formatItems
      <$> take (Z.to_nat (getCurrentLimit o w)) (facetValuesReturned o r)).
  { by rewrite widget_render_cache, Hid, slice0_nonneg. }
  assert (Hlen : length (lastResultsFromMainSearch (fst (widget_render o w r)))
    = min (length (facetValuesReturned o r))
          (Z.to_nat (getCurrentLimit o w))).
  { rewrite Hitems, length_fmap, length_take. apply Nat.min_comm. }
  rewrite widget_render_events. unfold render.
  eexists. split; [reflexivity|]. cbn [pl_items pl_canRefine].
  split; [exact Hitems|]. split; [exact Hlen|]. split; [done|].
  rewrite orb_false_l, Nat.ltb_lt, Hlen.
  split.
  - intros Hpos. split; [|lia].
    intros Hnil. rewrite Hnil in Hpos. simpl in Hpos. lia.
  - intros [Hne Hpos].
    destruct (facetValuesReturned o r); [done|]. cbn [length]. lia.
Qed.

(** X12. A negative limit counts from the end, as [slice] does: with the
    default [transformItems], [render] displays all returned facet values
    but the last [-currentLimit], and the result is never exhaustive. *)
Theorem widget_render_negative_limit w r :
  (∀ items, transformItems o items = items) →
  (getCurrentLimit o w < 0)%Z →
  ∃ p,
    snd (widget_render o w r) = [RenderFn p false]
    ∧ pl_items p
      = formatItems
        <$> take (length (facetValuesReturned o r)
                  - Z.to_nat (- getCurrentLimit o w))
              (facetValuesReturned o r)
    ∧ pl_hasExhaustiveItems p = false.
Proof.
  intros Hid Hlim. rewrite widget_render_events. unfold render.
  eexists. split; [reflexivity|]. cbn [pl_items pl_hasExhaustiveItems].
  split.
  - rewrite widget_render_cache, Hid. unfold slice0.
    destruct (Z.ltb_spec (getCurrentLimit o w) 0); [|lia].
    do 2 f_equal. lia.
  - destruct (widget_render_flag_cases w r) as [-> | ->];
      [apply Z.leb_gt|apply Z.ltb_ge]; lia.
Qed.

(** X13. The widget's [render] is idempotent: rendering the same options
    again gives the same closure variables and the same call to the
    rendering callback. *)
Theorem widget_render_idempotent w r :
  widget_render o (fst (widget_render o w r)) r = widget_render o w r.
Proof. reflexivity. Qed.

Lemma render_single w items s (b isFromSearch isFirst : bool) :
  ∃ p,
    render o w items s b isFromSearch isFirst = [RenderFn p isFirst]
    ∧ pl_items p = items
    ∧ pl_isFromSearch p = isFromSearch
    ∧ pl_canRefine p = isFromSearch || negb (bool_decide (items = []))
    ∧ pl_searchForItems p = (if b then Some s else None)
    ∧ pl_canToggleShowMore p = canShowLess o w || canShowMore o w isFromSearch.
Proof.
  eexists. split; [reflexivity|]. cbn.
  repeat split. by destruct items.
Qed.

(** Every call makes one call to the rendering callback through the inner
    [render], or none, or one sub-search. *)
Lemma step_events w c :
  (∃ w' items s b isFromSearch,
      snd (step o w c)
      = render o w' items s b isFromSearch
          (match c with CallInit _ => true | _ => false end)
      ∧ (searchForFacetValues w = true → b = true)
      ∧ (match c with CallInit _ => b = true | _ => True end))
  ∨ snd (step o w c) = []
  ∨ (∃ a q n t, snd (step o w c) = [SearchForFacetValues a q n t]).
Proof.
  destruct c; cbv beta iota delta [step].
  - left. by eexists _, _, _, _, _.
  - left. rewrite widget_render_events. by eexists _, _, _, _, _.
  - unfold toggleShowMore. cbv beta iota zeta.
    change (lastRender (mkWidgetState _ _ _ _ _ (lastRender w)))
      with (lastRender w).
    destruct (lastRender w) as [r|]; [|by right; left].
    left. rewrite widget_render_events. by eexists _, _, _, _, _.
  - unfold searchForItems, snd.
    destruct (String.eqb query "" && true).
    + left. by eexists _, _, _, _, _.
    + right. right. by eexists _, _, _, _.
  - left. unfold searchForItems_then, snd. by eexists _, _, _, _, _.
Qed.

(** X14. Whatever is called on a widget, it makes at most one call to the
    outside world, and when that call is to the rendering callback, it is
    flagged as the first render exactly when the call on the widget is
    [init]. *)
Theorem step_renders_once w c :
  length (snd (step o w c)) ≤ 1
  ∧ ∀ p (isFirstRender : bool),
      RenderFn p isFirstRender ∈ snd (step o w c) →
      isFirstRender = match c with CallInit _ => true | _ => false end.
Proof.
  destruct (step_events w c)
    as [(w' & items & s & b & f & -> & _)|[-> |(a & q & n & t & ->)]].
  - destruct (render_single w' items s b f
                (match c with CallInit _ => true | _ => false end))
      as (p0 & -> & _).
    split; [done|]. intros p i Hin%list_elem_of_singleton. congruence.
  - split; [simpl; lia|]. by intros p i ?%elem_of_nil.
  - split; [done|]. intros p i Hin%list_elem_of_singleton. congruence.
Qed.

(** X15. In every payload, [canRefine] is [isFromSearch || items.length > 0]:
    a render of sub-search results allows refining even when it shows no
    item, a render of primary results only when it shows one. *)
Theorem step_canRefine w c p :
  p ∈ payloads (snd (step o w c)) →
  pl_canRefine p = pl_isFromSearch p || negb (bool_decide (pl_items p = [])).
Proof.
  destruct (step_events w c)
    as [(w' & items & s & b & f & -> & _)|[-> |(a & q & n & t & ->)]].
  - destruct (render_single w' items s b f
                (match c with CallInit _ => true | _ => false end))
      as (p0 & -> & Hitems & Hsearch & Hrefine & _).
    simpl. intros ->%list_elem_of_singleton.
    by rewrite Hrefine, Hitems, Hsearch.
  - by intros ?%elem_of_nil.
  - by intros ?%elem_of_nil.
Qed.

Lemma step_searchForFacetValues w c :
  searchForFacetValues w = true ∨ (∃ h, c = CallInit h) →
  searchForFacetValues (fst (step o w c)) = true.
Proof.
  intros H. destruct c; cbv beta iota delta [step]; try done.
  - destruct H as [H|[h Hc]]; [done|discriminate Hc].
  - unfold toggleShowMore. cbv beta iota zeta.
    change (lastRender (mkWidgetState _ _ _ _ _ (lastRender w)))
      with (lastRender w).
    destruct H as [H|[h Hc]]; [|discriminate Hc].
    by destruct (lastRender w).
  - destruct H as [H|[h Hc]]; [done|discriminate Hc].
  - destruct H as [H|[h Hc]]; [done|discriminate Hc].
Qed.

Lemma step_searchForItems w c p :
  searchForFacetValues w = true ∨ (∃ h, c = CallInit h) →
  p ∈ payloads (snd (step o w c)) →
  is_Some (pl_searchForItems p).
Proof.
  intros H.
  destruct (step_events w c)
    as [(w' & items & s & b & f & -> & Hb & Hc)|[-> |(a & q & n & t & ->)]].
  - destruct (render_single w' items s b f
                (match c with CallInit _ => true | _ => false end))
      as (p0 & -> & _ & _ & _ & Hs & _).
    simpl. intros ->%list_elem_of_singleton. rewrite Hs.
    assert (b = true) as ->; [|by eexists].
    destruct H as [H|[h ->]]; [by apply Hb|done].
  - by intros ?%elem_of_nil.
  - by intros ?%elem_of_nil.
Qed.

Lemma payloads_app (evs1 evs2 : list Event) :
  payloads (evs1 ++ evs2) = payloads evs1 ++ payloads evs2.
Proof. unfold payloads. apply omap_app. Qed.

Lemma run_cons_events w c (cs : list Call) :
  snd (run o w (c :: cs))
  = snd (step o w c) ++ snd (run o (fst (step o w c)) cs).
Proof.
  cbn [run]. destruct (step o w c) as [w1 evs1]. cbn [fst snd].
  by destruct (run o w1 cs).
Qed.

Lemma run_searchForItems cs : ∀ w p,
  searchForFacetValues w = true →
  p ∈ payloads (snd (run o w cs)) →
  is_Some (pl_searchForItems p).
Proof.
  induction cs as [|c cs IH]; intros w p Hw.
  - by intros ?%elem_of_nil.
  - rewrite run_cons_events, payloads_app, elem_of_app. intros [Hp|Hp].
    + by apply (step_searchForItems w c p (or_introl Hw)).
    + apply (IH (fst (step o w c)) p); [|done].
      by apply step_searchForFacetValues; left.
Qed.

(** X16. Once [init] has run, every payload the widget renders, in any
    later sequence of calls, offers [searchForItems]. *)
Theorem searchForItems_bound_after_init w helperState (cs : list Call) p :
  p ∈ payloads (snd (run o w (CallInit helperState :: cs))) →
  is_Some (pl_searchForItems p).
Proof.
  rewrite run_cons_events, payloads_app, elem_of_app. intros [Hp|Hp].
  - apply (step_searchForItems w (CallInit helperState) p); [|done].
    right. by eexists.
  - apply (run_searchForItems cs (fst (step o w (CallInit helperState))) p);
      [|done].
    apply step_searchForFacetValues. right. by eexists.
Qed.

(** X17. The continuation of a sub-search renders once, with
    [isFromSearch] set and refinement allowed; show-more is not offered
    over search results, so the toggle is available only to show less.
    With the default [transformItems] there is one item per facet hit, in
    order, whose value and label are the hit's value, after escaping when
    [escapeFacetValues] is set. *)
Theorem searchForItems_then_payload
    (escapeFacets : list FacetHit → list FacetHit) w s
    (facetHits : list FacetHit) :
  (∀ items, transformItems o items = items) →
  ∃ p,
    searchForItems_then o escapeFacets w s facetHits = [RenderFn p false]
    ∧ pl_isFromSearch p = true
    ∧ pl_canRefine p = true
    ∧ pl_canToggleShowMore p = canShowLess o w
    ∧ value <$> pl_items p
      = hitValue <$> (if escapeFacetValues o then escapeFacets facetHits
                      else facetHits)
    ∧ label <$> pl_items p = value <$> pl_items p
    ∧ count <$> pl_items p
      = hitCount <$> (if escapeFacetValues o then escapeFacets facetHits
                      else facetHits).
Proof.
  intros Hid. unfold searchForItems_then. rewrite Hid.
  eexists. split; [reflexivity|].
  cbn [pl_isFromSearch pl_canRefine pl_canToggleShowMore pl_items].
  split; [done|]. split; [done|]. split.
  { unfold canShowMore. by rewrite andb_false_r, orb_false_r. }
  rewrite <- !list_fmap_compose. done.
Qed.

End rendering_more.

(** ** From validation to the show-more toggle *)

(** The options of an accepted widget are consistent. *)
Lemma connectRefinementList_wellformed (widgetParams : WidgetParams) o :
  connectRefinementList widgetParams = Ok o →
  attribute o ≠ ""
  ∧ (operator o = "and" ∨ operator o = "or")
  ∧ (showMore o = true → (limit o < showMoreLimit o)%Z).
Proof.
  intros Hok.
  destruct (connectRefinementList_cases widgetParams)
    as [[_ [msg Hthrow]]|[Hvalid (o' & Hok' & Ha & Hop & Hl & Hsm & Hsml)]];
    [congruence|].
  assert (o' = o) as -> by congruence.
  unfold invalidParams in Hvalid. rewrite <- Ha, <- Hop, <- Hl, <- Hsm, <- Hsml
    in Hvalid.
  split; [|split].
  - intros Hempty. apply Hvalid. left. right. by rewrite Hempty.
  - destruct (decide (operator o = "and")); [by left|].
    destruct (decide (operator o = "or")); [by right|].
    exfalso. apply Hvalid. right. left. done.
  - intros Hshow. destruct (Z.lt_ge_cases (limit o) (showMoreLimit o));
      [done|]. exfalso. apply Hvalid. right. right. done.
Qed.

Lemma widget_render_flag o w r :
  hasExhaustiveItems (fst (widget_render o w r))
  = if js_gt (maxValuesPerFacet (state r)) (getCurrentLimit o w)
    then (Z.of_nat (length (facetValuesReturned o r)) <=? getCurrentLimit o w)%Z
    else (Z.of_nat (length (facetValuesReturned o r)) <? getCurrentLimit o w)%Z.
Proof. done. Qed.

(** X18. For a widget accepted with [showMore], a limit that is not
    negative and the default [transformItems], rendering on a query state
    that went through [getWidgetSearchParameters] makes the show-more toggle
    available exactly when the results return more facet values than
    [limit], in base mode and in expanded mode alike. *)
Theorem canToggleShowMore_after_projection
    (widgetParams : WidgetParams) o s uiState s' w
    (results : string → list string → option (list FacetValue)) :
  connectRefinementList widgetParams = Ok o →
  showMore o = true →
  (0 ≤ limit o)%Z →
  (∀ items, transformItems o items = items) →
  getWidgetSearchParameters o s uiState = Ok s' →
  ∃ p,
    snd (widget_render o w (mkRenderOptions results s')) = [RenderFn p false]
    ∧ pl_canToggleShowMore p
      = bool_decide
          (limit o
           < Z.of_nat (length (facetValuesReturned o
                                 (mkRenderOptions results s'))))%Z.
Proof.
  intros Hok Hshow Hlimit Hid Hs'.
  destruct (connectRefinementList_wellformed widgetParams o Hok)
    as (_ & _ & Hsml). specialize (Hsml Hshow).
  destruct (getWidgetSearchParameters_fields o s uiState
              (getWidgetSearchParameters_Ok_read o s uiState s' Hs'))
    as (r' & Hr' & _ & _ & _ & _ & Hmax & _).
  assert (r' = s') as -> by congruence.
  unfold requested in Hmax. rewrite Hshow in Hmax.
  set (r := mkRenderOptions results s').
  set (returned := Z.of_nat (length (facetValuesReturned o r))).
  rewrite widget_render_events.
  destruct (render_single o (fst (widget_render o w r))
              (lastResultsFromMainSearch (fst (widget_render o w r)))
              (state r) (searchForFacetValues w) false false)
    as (p & -> & _ & _ & _ & _ & Htoggle).
  exists p. split; [done|]. rewrite Htoggle.
  unfold canShowLess, canShowMore, getIsShowingMore.
  rewrite Hshow, widget_render_flag.
  change (isShowingMore (fst (widget_render o w r))) with (isShowingMore w).
  change (maxValuesPerFacet (state r)) with (maxValuesPerFacet s').
  rewrite Hmax. fold returned. unfold getCurrentLimit, js_gt.
  destruct (isShowingMore w) eqn:Hmode;
    rewrite ?andb_true_l, ?andb_false_l, ?orb_false_l.
  - assert (Hlen : length (lastResultsFromMainSearch
                             (fst (widget_render o w r)))
      = min (length (facetValuesReturned o r))
            (Z.to_nat (showMoreLimit o))).
    { rewrite widget_render_cache, Hid. unfold getCurrentLimit.
      rewrite Hmode, slice0_nonneg by lia.
      rewrite length_fmap, length_take. apply Nat.min_comm. }
    rewrite Hlen.
    destruct (decide (limit o < returned)%Z) as [Hmore|Hless].
    + rewrite bool_decide_eq_true_2 by done.
      apply orb_true_iff. left. apply Z.ltb_lt. subst returned. lia.
    + rewrite bool_decide_eq_false_2 by done.
      apply orb_false_iff. split; [apply Z.ltb_ge; subst returned; lia|].
      destruct (_ <? _)%Z; apply negb_false_iff;
        [apply Z.leb_le|apply Z.ltb_lt]; lia.
  - assert ((limit o <? default 0 (maxValuesPerFacet s) `max` showMoreLimit o)%Z
            = true) as -> by (apply Z.ltb_lt; lia).
    destruct (decide (limit o < returned)%Z) as [Hmore|Hless].
    + rewrite bool_decide_eq_true_2 by done.
      apply negb_true_iff, Z.leb_gt. done.
    + rewrite bool_decide_eq_false_2 by done.
      apply negb_false_iff, Z.leb_le. lia.
Qed.

(** ** The configure connector, key by key *)

Section configure_more.
Context (widgetParams : Configure.ConfigureConnectorParams).
Implicit Types (s : SearchParameters) (uiState : UIState) (k : string)
  (plain : gmap string PValue).

Lemma setQueryParameters_lookup s plain k :
  queryParameters (SP.setQueryParameters s plain) !! k
  = match plain !! k with
    | Some PUndefined => None
    | Some v => Some v
    | None => queryParameters s !! k
    end.
Proof.
  unfold SP.setQueryParameters. simpl. rewrite lookup_merge.
  by destruct (plain !! k) as [[]|], (queryParameters s !! k).
Qed.

Lemma fromPlain_lookup plain k :
  queryParameters (SP.fromPlain plain) !! k
  = match plain !! k with
    | Some v => if is_defined v then Some v else None
    | None => None
    end.
Proof.
  unfold SP.fromPlain. simpl.
  destruct (plain !! k) as [v|] eqn:Hk.
  - destruct (is_defined v) eqn:Hv.
    + by apply map_lookup_filter_Some.
    + apply map_lookup_filter_None. right. intros v0 Hv0. simpl. congruence.
  - apply map_lookup_filter_None. by left.
Qed.

Lemma mergeSearchParameters_fromPlain_lookup s plain k :
  queryParameters (Configure.mergeSearchParameters s (SP.fromPlain plain)) !! k
  = match plain !! k with
    | Some v => if is_defined v then Some v else queryParameters s !! k
    | None => queryParameters s !! k
    end.
Proof.
  unfold Configure.mergeSearchParameters.
  rewrite setQueryParameters_lookup, fromPlain_lookup. simpl.
  destruct (plain !! k) as [v|]; [|done]. by destruct v.
Qed.

Lemma getInitialSearchParameters_lookup s k :
  queryParameters (Configure.getInitialSearchParameters s widgetParams) !! k
  = match Configure.searchParameters widgetParams !! k with
    | Some _ => None
    | None => queryParameters s !! k
    end.
Proof.
  unfold Configure.getInitialSearchParameters.
  rewrite setQueryParameters_lookup, lookup_fmap.
  by destruct (Configure.searchParameters widgetParams !! k).
Qed.

(** X19. [getWidgetState] of the configure connector changes nothing but
    the keys of the stored parameters under [configure]: the other keys of
    [configure], [refinementList] and all other categories are kept, and a
    second application returns the same UI state. *)
Theorem configure_getWidgetState_frame uiState :
  refinementList (Configure.getWidgetState widgetParams uiState)
  = refinementList uiState
  ∧ otherCategories (Configure.getWidgetState widgetParams uiState)
    = otherCategories uiState
  ∧ (∀ k, Configure.searchParameters widgetParams !! k = None →
          configure (Configure.getWidgetState widgetParams uiState)
            ≫= (.!! k)
          = configure uiState ≫= (.!! k))
  ∧ Configure.getWidgetState widgetParams
      (Configure.getWidgetState widgetParams uiState)
    = Configure.getWidgetState widgetParams uiState.
Proof.
  split; [done|]. split; [done|]. split.
  - intros k Hk. simpl. rewrite lookup_spread, Hk.
    by destruct (configure uiState).
  - unfold Configure.getWidgetState. simpl. do 2 f_equal.
    apply map_eq. intros k. rewrite !lookup_spread.
    by destruct (Configure.searchParameters widgetParams !! k).
Qed.

(** X20. [getWidgetSearchParameters] of the configure connector also
    applies the keys that only [uiState.configure] holds; a key held by
    neither, or held with the value [undefined], keeps the value of the
    query state. *)
Theorem configure_getWidgetSearchParameters_other_keys s uiState k :
  Configure.searchParameters widgetParams !! k = None →
  queryParameters
    (Configure.getWidgetSearchParameters widgetParams s uiState) !! k
  = match configure uiState ≫= (.!! k) with
    | Some v => if is_defined v then Some v else queryParameters s !! k
    | None => queryParameters s !! k
    end.
Proof.
  intros Hk. unfold Configure.getWidgetSearchParameters.
  rewrite mergeSearchParameters_fromPlain_lookup, lookup_spread, Hk.
  by destruct (configure uiState).
Qed.

(** X21. Applying [getWidgetSearchParameters] of the configure connector
    twice with the same UI state sets the plain query parameters as one
    application does. *)
Theorem configure_getWidgetSearchParameters_idempotent s uiState :
  queryParameters
    (Configure.getWidgetSearchParameters widgetParams
       (Configure.getWidgetSearchParameters widgetParams s uiState) uiState)
  = queryParameters
      (Configure.getWidgetSearchParameters widgetParams s uiState).
Proof.
  apply map_eq. intros k. unfold Configure.getWidgetSearchParameters.
  rewrite !mergeSearchParameters_fromPlain_lookup.
  destruct (spread _ _ !! k) as [v|]; [|done]. by destruct (is_defined v).
Qed.

(** X22. [dispose] of the configure connector unsets every key of the
    stored parameters, whatever value the query state holds for it, and
    keeps every other plain parameter; disposing twice is disposing once. *)
Theorem configure_dispose_removes_keys s :
  (∀ k,
     queryParameters (fst (Configure.dispose widgetParams s)) !! k
     = match Configure.searchParameters widgetParams !! k with
       | Some _ => None
       | None => queryParameters s !! k
       end)
  ∧ queryParameters
      (fst (Configure.dispose widgetParams
              (fst (Configure.dispose widgetParams s))))
    = queryParameters (fst (Configure.dispose widgetParams s)).
Proof.
  split.
  - intros k. apply getInitialSearchParameters_lookup.
  - apply map_eq. intros k. unfold Configure.dispose. cbn [fst].
    rewrite !getInitialSearchParameters_lookup.
    by destruct (Configure.searchParameters widgetParams !! k).
Qed.

(** X23. Mounting then unmounting: when the query state holds none of the
    widget's keys and the UI state brings no key of its own under
    [configure], [dispose] after [getWidgetSearchParameters] gives back the
    plain parameters of the query state. *)
Theorem configure_dispose_after_getWidgetSearchParameters s uiState :
  (∀ k, is_Some (Configure.searchParameters widgetParams !! k) →
        queryParameters s !! k = None) →
  (∀ k, is_Some (configure uiState ≫= (.!! k)) →
        is_Some (Configure.searchParameters widgetParams !! k)) →
  queryParameters
    (fst (Configure.dispose widgetParams
            (Configure.getWidgetSearchParameters widgetParams s uiState)))
  = queryParameters s.
Proof.
  intros Hfresh Hkeys. apply map_eq. intros k.
  unfold Configure.dispose, Configure.getWidgetSearchParameters. cbn [fst].
  rewrite getInitialSearchParameters_lookup,
    mergeSearchParameters_fromPlain_lookup, lookup_spread.
  destruct (Configure.searchParameters widgetParams !! k) as [v|] eqn:Hk.
  - symmetry. apply Hfresh. by eexists.
  - destruct (default ∅ (configure uiState) !! k) as [v|] eqn:Hui; [|done].
    specialize (Hkeys k). rewrite Hk in Hkeys.
    destruct Hkeys as [? ?]; [|done].
    destruct (configure uiState); simpl in *; [by eexists|done].
Qed.

(** X24. [refine] replaces the stored parameters by the new ones and
    triggers one search on a state in which every defined new parameter is
    set, every key of the previously stored parameters that the new ones do
    not define is unset, and every other plain parameter is kept. *)
Theorem configure_refine_state (helperState : SearchParameters) plain :
  fst (Configure.refine widgetParams helperState plain)
  = Configure.mkParams plain
  ∧ ∃ next,
      snd (Configure.refine widgetParams helperState plain)
      = [Configure.SetStateAndSearch next]
      ∧ ∀ k,
          queryParameters next !! k
          = match plain !! k with
            | Some PUndefined | None =>
                match Configure.searchParameters widgetParams !! k with
                | Some _ => None
                | None => queryParameters helperState !! k
                end
            | Some v => Some v
            end.
Proof.
  split; [done|]. eexists. split; [reflexivity|]. intros k.
  rewrite mergeSearchParameters_fromPlain_lookup,
    getInitialSearchParameters_lookup.
  by destruct (plain !! k) as [[]|].
Qed.

(** X25. After [refine], [dispose] works on the replaced parameters: on
    the state the refinement searched with, it leaves unset every key of
    the new parameters and every key of the previous ones, and keeps the
    rest of the helper's state. *)
Theorem configure_refine_then_dispose
    (helperState next : SearchParameters) plain :
  snd (Configure.refine widgetParams helperState plain)
  = [Configure.SetStateAndSearch next] →
  ∀ k,
    queryParameters
      (fst (Configure.dispose
              (fst (Configure.refine widgetParams helperState plain)) next))
      !! k
    = match plain !! k, Configure.searchParameters widgetParams !! k with
      | None, None => queryParameters helperState !! k
      | _, _ => None
      end.
Proof.
  unfold Configure.refine. cbn [fst snd]. intros Hnext k.
  assert (next
    = Configure.mergeSearchParameters
        (Configure.getInitialSearchParameters helperState widgetParams)
        (SP.fromPlain plain)) as -> by congruence.
  unfold Configure.dispose, Configure.getInitialSearchParameters at 1.
  cbn [fst Configure.searchParameters].
  rewrite setQueryParameters_lookup, lookup_fmap,
    mergeSearchParameters_fromPlain_lookup,
    getInitialSearchParameters_lookup.
  destruct (plain !! k); [done|]. simpl.
  by destruct (Configure.searchParameters widgetParams !! k).
Qed.

End configure_more.

(** ** Concrete instances of the further properties *)

Lemma NoDup_Apple_Sony : NoDup ["Apple"; "Sony"].
Proof.
  apply NoDup_cons. split; [|apply NoDup_singleton].
  intros Hin%list_elem_of_singleton. discriminate Hin.
Qed.

Lemma brand_read_not_inherited (uiState : UIState) :
  readRefinementList uiState "brand" ≠ InheritedProperty.
Proof.
  assert (bool_decide ("brand" ∈ objectPrototypeKeys) = false) as Hb
    by (vm_compute; reflexivity).
  unfold readRefinementList, readProperty.
  destruct (refinementList uiState) as [object|]; [|done].
  destruct (object !! "brand"); [done|]. by rewrite Hb.
Qed.

Lemma getWidgetSearchParameters_declares_facet_brand :
  ∃ r,
    getWidgetSearchParameters brandOptions brandAndState brandUIState = Ok r
    ∧ "brand" ∈ channelFacets brandOptions r
    ∧ channelFacets brandOptions r = ["color"; "brand"]
    ∧ otherFacets brandOptions r = ["brand"].
Proof.
  destruct (getWidgetSearchParameters_declares_facet brandOptions
              brandAndState brandUIState (brand_read_not_inherited _))
    as (r & Hr & Hin & Hcf & Hof).
  exists r. split; [exact Hr|]. split; [exact Hin|].
  split; [rewrite Hcf; vm_compute; reflexivity|exact Hof].
Defined.

Lemma getWidgetSearchParameters_values_brand :
  ∃ r,
    getWidgetSearchParameters brandOptions brandState brandUIState = Ok r
    ∧ NoDup (channelRefinements brandOptions r)
    ∧ "Sony" ∈ channelRefinements brandOptions r.
Proof.
  destruct (getWidgetSearchParameters_values brandOptions brandState
              brandUIState (brand_read_not_inherited _))
    as (r & Hr & Hnd & Hin).
  exists r. split; [exact Hr|]. split; [exact Hnd|].
  apply Hin. vm_compute. right. left.
Defined.

Lemma getWidgetSearchParameters_idempotent_brand :
  ∃ r,
    getWidgetSearchParameters brandOptions brandAndState brandUIState = Ok r
    ∧ getWidgetSearchParameters brandOptions r brandUIState = Ok r.
Proof.
  apply (getWidgetSearchParameters_idempotent brandOptions brandAndState
           brandUIState).
  apply brand_read_not_inherited.
Defined.

Lemma getWidgetSearchParameters_maxValuesPerFacet_brand :
  ∃ s1 s2,
    getWidgetSearchParameters brandOptions brandState brandUIState = Ok s1
    ∧ getWidgetSearchParameters brandOptions s1 brandUIState = Ok s2
    ∧ maxValuesPerFacet s1 = Some 5%Z
    ∧ (3 ≤ default 0 (maxValuesPerFacet s1))%Z
    ∧ maxValuesPerFacet s2 = maxValuesPerFacet s1.
Proof.
  apply (getWidgetSearchParameters_maxValuesPerFacet brandOptions brandState
           brandUIState).
  apply brand_read_not_inherited.
Defined.

Lemma getWidgetSearchParameters_frame_brand :
  ∃ r,
    getWidgetSearchParameters brandOptions brandAndState brandUIState = Ok r
    ∧ facetsRefinements r !! "color" = None
    ∧ facetsRefinements r !! "brand" = None.
Proof.
  destruct (getWidgetSearchParameters_frame brandOptions brandAndState
              brandUIState (brand_read_not_inherited _))
    as (r & Hr & Hframe & Hother & _).
  exists r. split; [exact Hr|]. split.
  - destruct (Hframe "color") as [H _]; [discriminate|]. exact H.
  - exact Hother.
Defined.

Lemma getWidgetSearchParameters_keeps_order_brand :
  ∃ r,
    getWidgetSearchParameters brandOptions brandAndState brandUIState = Ok r
    ∧ channelRefinements brandOptions r = ["Apple"; "Sony"].
Proof.
  apply (getWidgetSearchParameters_keeps_order brandOptions brandAndState
           brandUIState ["Apple"; "Sony"]).
  - vm_compute. reflexivity.
  - exact NoDup_Apple_Sony.
Defined.

Lemma getWidgetSearchParameters_getWidgetState_roundtrip_brand :
  ∃ r,
    getWidgetSearchParameters brandOptions SP.empty brandUIState = Ok r
    ∧ uiValues (getWidgetState brandOptions emptyUIState r) "brand"
      = Some ["Apple"; "Sony"].
Proof.
  assert (uiValues brandUIState "brand" = Some ["Apple"; "Sony"]) as Hui
    by (vm_compute; reflexivity).
  pose proof (getWidgetSearchParameters_getWidgetState_roundtrip brandOptions
                SP.empty brandUIState emptyUIState) as H.
  change (attribute brandOptions) with "brand" in H. rewrite Hui in H.
  exact (H (brand_read_not_inherited _) NoDup_Apple_Sony).
Defined.

Lemma dispose_undeclared_brand :
  fst (dispose brandOptions SP.empty) = SP.setMaxValuesPerFacet SP.empty None.
Proof.
  apply (dispose_undeclared brandOptions SP.empty).
  - right. reflexivity.
  - simpl. apply not_elem_of_nil.
Defined.

Lemma dispose_after_getWidgetSearchParameters_brand :
  ∃ r,
    getWidgetSearchParameters brandOptions brandState brandUIState = Ok r
    ∧ ("brand" ∉ channelFacets brandOptions (fst (dispose brandOptions r)))
    ∧ facetsRefinements (fst (dispose brandOptions r)) !! "brand" = None
    ∧ disjunctiveFacetsRefinements (fst (dispose brandOptions r)) !! "brand"
      = None
    ∧ maxValuesPerFacet (fst (dispose brandOptions r)) = None.
Proof.
  apply (dispose_after_getWidgetSearchParameters brandOptions brandState
           brandUIState).
  - right. reflexivity.
  - apply brand_read_not_inherited.
Defined.

Lemma widget_render_items_brand :
  ∃ p,
    snd (widget_render brandOptions initialState (brandResults SP.empty))
    = [RenderFn p false]
    ∧ value <$> pl_items p = ["Apple"; "Samsung"]
    ∧ pl_canRefine p = true.
Proof.
  destruct (widget_render_items brandOptions initialState
              (brandResults SP.empty)) as (p & Hp & Hitems & _ & _ & Hrefine).
  - intros items. reflexivity.
  - change (0 ≤ 2)%Z. lia.
  - exists p. split; [exact Hp|]. split.
    + rewrite Hitems. reflexivity.
    + apply Hrefine. split; [discriminate|]. change (0 < 2)%Z. lia.
Defined.

Lemma widget_render_negative_limit_brand :
  ∃ p,
    snd (widget_render negativeLimitOptions initialState
           (brandResults SP.empty)) = [RenderFn p false]
    ∧ value <$> pl_items p = ["Apple"; "Samsung"]
    ∧ pl_hasExhaustiveItems p = false.
Proof.
  destruct (widget_render_negative_limit negativeLimitOptions initialState
              (brandResults SP.empty)) as (p & Hp & Hitems & Hflag).
  - intros items. reflexivity.
  - change (-1 < 0)%Z. lia.
  - exists p. split; [exact Hp|]. split; [|exact Hflag].
    rewrite Hitems. reflexivity.
Defined.

Lemma step_renders_once_brand :
  ∃ p (isFirstRender : bool),
    RenderFn p isFirstRender
    ∈ snd (step brandOptions initialState (CallInit SP.empty))
    ∧ isFirstRender = true.
Proof.
  pose proof (proj2 (step_renders_once brandOptions initialState
                       (CallInit SP.empty))) as H.
  eexists _, _. split.
  - simpl. constructor.
  - eapply H. simpl. constructor.
Defined.

Lemma step_canRefine_no_hit :
  ∃ p,
    p ∈ payloads
          (snd (step brandOptions initialState
                  (CallSubSearchResolved (λ hits, hits) SP.empty [])))
    ∧ pl_items p = []
    ∧ pl_canRefine p = true.
Proof.
  eexists. split; [simpl; constructor|]. split; [reflexivity|].
  rewrite (step_canRefine brandOptions initialState
             (CallSubSearchResolved (λ hits, hits) SP.empty [])).
  - reflexivity.
  - simpl. constructor.
Defined.

Lemma searchForItems_bound_after_init_brand :
  ∃ p,
    p ∈ payloads
          (snd (run brandOptions initialState
                  [CallInit SP.empty; CallRender (brandResults SP.empty)]))
    ∧ is_Some (pl_searchForItems p).
Proof.
  eexists. split.
  - simpl. constructor.
  - apply (searchForItems_bound_after_init brandOptions initialState SP.empty
             [CallRender (brandResults SP.empty)]).
    simpl. constructor.
Defined.

Lemma searchForItems_then_payload_brand :
  ∃ p,
    searchForItems_then brandOptions (λ hits, hits) initialState SP.empty
      [mkFacetHit "Apple" "<em>App</em>le" 3 false] = [RenderFn p false]
    ∧ value <$> pl_items p = ["Apple"]
    ∧ label <$> pl_items p = ["Apple"]
    ∧ pl_canToggleShowMore p = false.
Proof.
  destruct (searchForItems_then_payload brandOptions (λ hits, hits)
              initialState SP.empty
              [mkFacetHit "Apple" "<em>App</em>le" 3 false])
    as (p & Hp & _ & _ & Htoggle & Hvalue & Hlabel & _).
  - intros items. reflexivity.
  - exists p. split; [exact Hp|]. split; [exact Hvalue|].
    split; [|exact Htoggle]. rewrite Hlabel. exact Hvalue.
Defined.

Lemma canToggleShowMore_after_projection_brand :
  ∃ s' p,
    getWidgetSearchParameters brandOptions SP.empty emptyUIState = Ok s'
    ∧ snd (widget_render brandOptions initialState (brandResults s'))
      = [RenderFn p false]
    ∧ pl_canToggleShowMore p = true.
Proof.
  destruct (getWidgetSearchParameters_fields brandOptions SP.empty
              emptyUIState (brand_read_not_inherited _)) as (s' & Hs' & _).
  destruct (canToggleShowMore_after_projection brandParams brandOptions
              SP.empty emptyUIState s' initialState
              (getFacetValues (brandResults s')))
    as (p & Hp & Htoggle).
  - reflexivity.
  - reflexivity.
  - change (0 ≤ 2)%Z. lia.
  - intros items. reflexivity.
  - exact Hs'.
  - exists s', p. split; [exact Hs'|]. split; [exact Hp|].
    rewrite Htoggle. apply bool_decide_eq_true. change (2 < 3)%Z. lia.
Defined.

Lemma configure_getWidgetState_frame_query :
  configure (Configure.getWidgetState hitsPerPageParams queryUIState)
    ≫= (.!! "query")
  = Some (PStr "phone").
Proof.
  destruct (configure_getWidgetState_frame hitsPerPageParams queryUIState)
    as (_ & _ & H & _).
  rewrite (H "query"); vm_compute; reflexivity.
Defined.

Lemma configure_getWidgetSearchParameters_other_keys_query :
  queryParameters
    (Configure.getWidgetSearchParameters hitsPerPageParams SP.empty
       queryUIState) !! "query"
  = Some (PStr "phone").
Proof.
  rewrite (configure_getWidgetSearchParameters_other_keys hitsPerPageParams
             SP.empty queryUIState "query").
  - vm_compute. reflexivity.
  - vm_compute. reflexivity.
Defined.

Lemma configure_dispose_after_getWidgetSearchParameters_hitsPerPage :
  queryParameters
    (fst (Configure.dispose hitsPerPageParams
            (Configure.getWidgetSearchParameters hitsPerPageParams SP.empty
               emptyUIState)))
  = queryParameters SP.empty.
Proof.
  apply (configure_dispose_after_getWidgetSearchParameters hitsPerPageParams
           SP.empty emptyUIState).
  - intros k _. apply lookup_empty.
  - intros k [v Hv]. discriminate Hv.
Defined.

Lemma configure_refine_then_dispose_hitsPerPage :
  ∃ next,
    snd (Configure.refine hitsPerPageParams SP.empty
           {["query" := PStr "phone"]})
    = [Configure.SetStateAndSearch next]
    ∧ queryParameters next !! "query" = Some (PStr "phone")
    ∧ queryParameters
        (fst (Configure.dispose
                (fst (Configure.refine hitsPerPageParams SP.empty
                        {["query" := PStr "phone"]})) next)) !! "query"
      = None.
Proof.
  eexists. split; [reflexivity|]. split; [vm_compute; reflexivity|].
  rewrite (configure_refine_then_dispose hitsPerPageParams SP.empty _
             {["query" := PStr "phone"]} eq_refl "query").
  vm_compute. reflexivity.
Defined.

(** ** Reading [refinementList[attribute]] through the prototype *)



Lemma readRefinementList_inherited uiState (a : string) :
  readRefinementList uiState a = InheritedProperty
  ↔ ∃ object, refinementList uiState = Some object
              ∧ object !! a = None
              ∧ a ∈ objectPrototypeKeys.
Proof.
  unfold readRefinementList, readProperty.
  destruct (refinementList uiState) as [object|].
  - destruct (object !! a) as [values|] eqn:Hown.
    + split; [done|]. intros (object' & [= <-] & Hnone & _). congruence.
    + case_bool_decide as Hin.
      * split; [|done]. intros _. by exists object.
      * split; [done|]. intros (object' & _ & _ & Hin'). done.
  - split; [done|]. by intros (object & ? & _).
Qed.

(** The stale entry of a UI state comes back: with no refinement in the
    query state, [getWidgetState] returns the UI state as it is, and
    [getWidgetSearchParameters] then refines by the value it holds, which
    the original query state did not.  This refutes the round trip stated
    for every UI state (C2). *)
Lemma roundtrip_stale_entry :
  ¬ ∃ s',
      getWidgetSearchParameters brandOptions SP.empty
        (getWidgetState brandOptions staleUIState SP.empty) = Ok s'
      ∧ list_to_set (channelRefinements brandOptions s')
        =@{gset string} list_to_set (channelRefinements brandOptions SP.empty).
Proof.
  intros (s' & Hs' & Hset).
  assert (channelRefinements brandOptions s' = ["Stale"]) as Hstale.
  { vm_compute in Hs'. injection Hs' as <-. vm_compute. reflexivity. }
  rewrite Hstale in Hset.
  assert ("Stale" ∈ (list_to_set ["Stale"] : gset string)) as Hin
    by set_solver.
  rewrite Hset in Hin. by apply not_elem_of_empty in Hin.
Qed.

(** C3. The factory accepts the attribute [constructor], and for a UI state
    whose [refinementList] is an object without that key
    [getWidgetSearchParameters] finds the inherited [Object.prototype]
    property, skips the reset branch and throws at the fold: it returns no
    state, so no [maxValuesPerFacet], on any query state. *)
Theorem getWidgetSearchParameters_constructor_throws (s : SearchParameters) :
  connectRefinementList constructorParams = Ok constructorOptions
  ∧ uiValues emptyRefinementListUIState "constructor" = None
  ∧ getWidgetSearchParameters constructorOptions s emptyRefinementListUIState
    = Throw "values.reduce is not a function".
Proof.
  split; [reflexivity|]. split; [reflexivity|].
  apply getWidgetSearchParameters_inherited. vm_compute. reflexivity.
Qed.


(** X26. [getWidgetSearchParameters] throws exactly when [refinementList]
    is an object that does not hold the attribute as its own property and
    the attribute is a name inherited from [Object.prototype]; on every
    other input it returns a state. *)
Theorem getWidgetSearchParameters_throws_iff o s uiState :
  ((∃ msg, getWidgetSearchParameters o s uiState = Throw msg)
   ↔ ∃ object, refinementList uiState = Some object
               ∧ object !! attribute o = None
               ∧ attribute o ∈ objectPrototypeKeys)
  ∧ ((∃ r, getWidgetSearchParameters o s uiState = Ok r)
     ↔ ¬ ∃ object, refinementList uiState = Some object
                   ∧ object !! attribute o = None
                   ∧ attribute o ∈ objectPrototypeKeys).
Proof.
  rewrite <- readRefinementList_inherited.
  assert (readRefinementList uiState (attribute o) = InheritedProperty
          ∨ readRefinementList uiState (attribute o) ≠ InheritedProperty)
    as [Hread|Hread]
    by (destruct (readRefinementList uiState (attribute o));
        [by right|by left|by right]).
  - rewrite (getWidgetSearchParameters_inherited o s uiState Hread).
    split; split; try done; eauto. intros [r Hr]. discriminate Hr.
  - rewrite (getWidgetSearchParameters_normal o s uiState Hread).
    split; split; try done; eauto. intros [msg Hmsg]. discriminate Hmsg.
Qed.
